(** * Employee self-service server actions: a shallow embedding

    The server actions of [src/app/actions] (goals, timesheets, tasks,
    appraisals, calendar, settings) are embedded as state-passing functions
    over a model of the relational store.  Every action has the shape

      authenticate -> authorize by ownership -> validate -> mutate
        -> recompute aggregate -> invalidate cache -> envelope

    and is written here in a small state-and-exception monad, so that the
    [try { ... } catch] boundary of each action is explicit.

    The file has two parts: the embedding (numbers, dates, rows, store,
    monad, then one section per source file), and the properties C1 to
    C10 with the lemmas they rest on.

    Conventions of the embedding:
    - a JavaScript [number] is a binary64 floating-point number ([float]):
      arithmetic rounds as the IEEE 754 operations do, and the comparisons
      are the IEEE 754 ones (NaN compares with nothing, the two zeros are
      equal); a [Float] column of the store holds such a number and the
      store adds them up in the same arithmetic;
    - a [Date] is its time value, an integer count of milliseconds since the
      epoch ([Z]); the local time zone [tz] of the environment gives the
      offset of local time as ECMAScript's LocalTZA does, so the offset may
      depend on the instant (daylight-saving transitions); an Invalid Date
      is [None] where the code can meet one;
    - a table of the store is a finite map from the primary key [id] to the
      row ([gmap string row]): the key is unique by construction;
    - the Prisma schema is not part of the sources; row types list the
      columns the actions read or write. *)

From Stdlib Require Import ZArith Floats.
From stdpp Require Import gmap strings list fin_maps sorting pretty.

Local Open Scope string_scope.
Local Open Scope Z_scope.

(** ** JavaScript numbers *)

#[local] Set Warnings "-inexact-float".

Module Num.

(** [x <= y], [x < y] and [x === y] on numbers. *)
Definition leb (x y : float) : bool := PrimFloat.leb x y.
Definition ltb (x y : float) : bool := PrimFloat.ltb x y.
Definition eqb (x y : float) : bool := PrimFloat.eqb x y.

Definition isNaN (x : float) : bool := PrimFloat.is_nan x.

(** [Math.max(x, y)] and [Math.min(x, y)]: NaN when an argument is NaN;
    +0 counts as larger than -0. *)
Definition max (x y : float) : float :=
  if isNaN x || isNaN y then PrimFloat.nan
  else if ltb x y then y
  else if ltb y x then x
  else if PrimFloat.get_sign x then y else x.

Definition min (x y : float) : float :=
  if isNaN x || isNaN y then PrimFloat.nan
  else if ltb x y then x
  else if ltb y x then y
  else if PrimFloat.get_sign x then x else y.

(** Truthiness of a number: [0], [-0] and NaN are falsy. *)
Definition truthy (x : float) : bool := negb (PrimFloat.is_zero x || isNaN x).

(** [x || 0] for a possibly-null number. *)
Definition orZero (x : option float) : float :=
  match x with
  | Some q => if truthy q then q else 0%float
  | None => 0%float
  end.

(** The number of an integer below 2^53 in absolute value. *)
Definition ofZ (n : Z) : float :=
  if n <? 0 then PrimFloat.opp (PrimFloat.of_uint63 (Uint63.of_Z (- n)))
  else PrimFloat.of_uint63 (Uint63.of_Z n).

(** [array.length] as a number. *)
Definition ofNat (n : nat) : float := ofZ (Z.of_nat n).

(** [Math.round]: the nearest integer, a half rounded towards +infinity;
    an integer, an infinity and NaN are returned as they are, and what
    rounds to zero from below is -0.  The number is [m * 2^e] with the
    sign [s]; its integer part is [q] and [r / 2^-e] is what is left. *)
Definition round (x : float) : float :=
  match Prim2SF x with
  | S754_finite s m e =>
      if 0 <=? e then x
      else
        let q := Z.shiftr (Z.pos m) (- e) in
        let r := Z.pos m - Z.shiftl q (- e) in
        let half := Z.shiftl 1 (- e - 1) in
        if s then PrimFloat.opp (ofZ (if half <? r then q + 1 else q))
        else ofZ (if half <=? r then q + 1 else q)
  | _ => x
  end.

(** [l.reduce((sum, x) => sum + x, 0)]. *)
Definition sum (l : list float) : float := fold_left PrimFloat.add l 0%float.

End Num.

(** ** JavaScript dates (ECMAScript time values and local time) *)

Module JsDate.

Definition msPerDay : Z := 86400000.
Definition msPerHour : Z := 3600000.
Definition msPerMinute : Z := 60000.
Definition msPerSecond : Z := 1000.

Definition Day (t : Z) : Z := t / msPerDay.
Definition TimeWithinDay (t : Z) : Z := t mod msPerDay.
Definition MakeTime (h m s ms : Z) : Z :=
  h * msPerHour + m * msPerMinute + s * msPerSecond + ms.
Definition MakeDate (day time : Z) : Z := day * msPerDay + time.

(** 1 January 1970 was a Thursday; Sunday is 0. *)
Definition WeekDay (t : Z) : Z := (Day t + 4) mod 7.

(** Civil calendar: year, month (0 = January) and day of month of a day
    number, in the proleptic Gregorian calendar. *)
Definition civilFromDays (d : Z) : Z * Z * Z :=
  let z := d + 719468 in
  let era := z / 146097 in
  let doe := z mod 146097 in
  let yoe := (doe - doe / 1460 + doe / 36524 - doe / 146096) / 365 in
  let doy := doe - (365 * yoe + yoe / 4 - yoe / 100) in
  let mp := (5 * doy + 2) / 153 in
  let dom := doy - (153 * mp + 2) / 5 + 1 in
  let m := if mp <? 10 then mp + 2 else mp - 10 in
  let y := yoe + era * 400 + (if m <=? 1 then 1 else 0) in
  (y, m, dom).

(** Day number of the first day of month [m] (0-based) of year [y]. *)
Definition daysFromCivil (y m : Z) : Z :=
  let y' := if m <=? 1 then y - 1 else y in
  let era := y' / 400 in
  let yoe := y' mod 400 in
  let mp := if m <=? 1 then m + 10 else m - 2 in
  let doy := (153 * mp + 2) / 5 in
  let doe := yoe * 365 + yoe / 4 - yoe / 100 + doy in
  era * 146097 + doe - 719468.

Definition YearFromTime (t : Z) : Z := (civilFromDays (Day t)).1.1.
Definition MonthFromTime (t : Z) : Z := (civilFromDays (Day t)).1.2.
Definition DateFromTime (t : Z) : Z := (civilFromDays (Day t)).2.

(** [MakeDay(year, month, date)]: months outside 0..11 carry into the
    year, [date] outside the month carries into the neighbouring months. *)
Definition MakeDay (year month date : Z) : Z :=
  daysFromCivil (year + month / 12) (month mod 12) + date - 1.

Definition HourFromTime (t : Z) : Z := (t / msPerHour) mod 24.
Definition MinFromTime (t : Z) : Z := (t / msPerMinute) mod 60.
Definition SecFromTime (t : Z) : Z := (t / msPerSecond) mod 60.
Definition msFromTime (t : Z) : Z := t mod msPerSecond.

(** Decimal digits of [n], padded with zeros to [width]. *)
Definition pad (width : nat) (n : Z) : string :=
  let digits := pretty (Z.to_N n) in
  String.concat "" (replicate (width - String.length digits)%nat "0") +:+ digits.

(** [d.toISOString()]: YYYY-MM-DDTHH:mm:ss.sssZ in UTC, with a signed
    six-digit year outside 0..9999. *)
Definition toISOString (t : Z) : string :=
  let y := YearFromTime t in
  (if (0 <=? y) && (y <=? 9999) then pad 4 y
   else (if y <? 0 then "-" else "+") +:+ pad 6 (Z.abs y))
  +:+ "-" +:+ pad 2 (MonthFromTime t + 1)
  +:+ "-" +:+ pad 2 (DateFromTime t)
  +:+ "T" +:+ pad 2 (HourFromTime t)
  +:+ ":" +:+ pad 2 (MinFromTime t)
  +:+ ":" +:+ pad 2 (SecFromTime t)
  +:+ "." +:+ pad 3 (msFromTime t) +:+ "Z".

(** The local time zone, as ECMAScript's [LocalTZA(t, isUTC)]: the offset
    of local time from UTC in milliseconds.  With [isUTC = true], [t] is an
    instant and the result is the offset in force at it; with
    [isUTC = false], [t] is a local time value and the result is the offset
    by which the zone reads it (a local time that a transition skips or
    repeats is read with the offset before the transition). *)
Definition Zone : Type := Z -> bool -> Z.

(** A zone whose offset never changes. *)
Definition fixedZone (offset : Z) : Zone := fun _ _ => offset.

(** A zone with one transition: the offset is [before] until the instant
    [at_] and [after] from then on.  The local times from [at_ + before]
    to [at_ + after] are skipped (when the clocks go forward) or repeated
    (when they go back). *)
Definition transitionZone (before after at_ : Z) : Zone :=
  fun t isUTC =>
    if isUTC then (if t <? at_ then before else after)
    else (if t <? at_ + Z.max before after then before else after).

Section Local.
Variable tz : Zone.

(** [LocalTime(t)] and [UTC(t)] of ECMAScript. *)
Definition LocalTime (t : Z) : Z := t + tz t true.
Definition UTC (l : Z) : Z := l - tz l false.

Definition getDay (t : Z) : Z := WeekDay (LocalTime t).
Definition getDate (t : Z) : Z := DateFromTime (LocalTime t).
Definition getTime (t : Z) : Z := t.

(** [d.setDate(dt)]: day [dt] of the month of [d] (carrying into the
    neighbouring months), the time within the day kept. *)
Definition setDate (t dt : Z) : Z :=
  let l := LocalTime t in
  UTC (MakeDate (MakeDay (YearFromTime l) (MonthFromTime l) dt)
                (TimeWithinDay l)).

(** [d.setHours(h, m, s, ms)]. *)
Definition setHours (t h m s ms : Z) : Z :=
  UTC (MakeDate (Day (LocalTime t)) (MakeTime h m s ms)).

(** [new Date(year, month, date, h, m, s, ms)]; a year in 0..99 means
    1900 + year. *)
Definition fromFields (year month date h m s ms : Z) : Z :=
  let yr := if (0 <=? year) && (year <=? 99) then 1900 + year else year in
  UTC (MakeDate (MakeDay yr month date) (MakeTime h m s ms)).
End Local.

End JsDate.

(** ** Data model: the rows of the relational store *)

(** Modelled from the spec: the enum [TimesheetStatus] of the Prisma
    client (the schema is not under src/): DRAFT, SUBMITTED, APPROVED. *)
Inductive TimesheetStatus := TS_DRAFT | TS_SUBMITTED | TS_APPROVED.

(** Modelled from the spec: the enum [AppraisalStatus] of the Prisma
    client (the schema is not under src/): DRAFT, IN_PROGRESS, COMPLETED. *)
Inductive AppraisalStatus := AS_DRAFT | AS_IN_PROGRESS | AS_COMPLETED.

#[global] Instance TimesheetStatus_eq_dec : EqDecision TimesheetStatus.
Proof. solve_decision. Defined.
#[global] Instance AppraisalStatus_eq_dec : EqDecision AppraisalStatus.
Proof. solve_decision. Defined.

(** A value of a [jsonb] column, as far as the settings actions write one. *)
Inductive Json := JString (s : string) | JBool (b : bool).

Module User.
Record t := mk {
  name : option string;
  email : option string;
  preferences : option (gmap string Json);
  notificationSettings : option (gmap string Json)
}.
End User.

Module Project.
Record t := mk { name : string; status : string }.
End Project.

Module Task.
Record t := mk {
  title : string;
  description : option string;
  status : string;
  priority : string;
  dueDate : option Z;
  projectId : option string;
  assigneeId : option string;
  reporterId : option string;
  estimatedHours : option float;
  actualHours : option float;
  createdAt : Z;
  updatedAt : Z
}.
End Task.

Module Goal.
Record t := mk {
  userId : string;
  title : string;
  description : option string;
  targetDate : option Z;
  progress : float;
  status : string;
  updatedAt : Z
}.
End Goal.

Module Timesheet.
Record t := mk {
  userId : string;
  weekStart : Z;
  weekEnd : Z;
  totalHours : float;
  status : TimesheetStatus;
  approverId : option string;
  updatedAt : Z
}.
End Timesheet.

Module TimesheetEntry.
Record t := mk {
  timesheetId : string;
  date : Z;
  projectId : string;
  hours : float;
  description : option string;
  billable : bool
}.
End TimesheetEntry.

Module AppraisalCycle.
Record t := mk {
  name : string;
  startDate : Z;
  endDate : Z;
  status : AppraisalStatus
}.
End AppraisalCycle.

Module AppraisalReview.
Record t := mk {
  cycleId : string;
  userId : string;
  selfReview : option string;
  rating : option float;
  finalRating : option float;
  status : AppraisalStatus;
  submittedAt : option Z;
  createdAt : Z;
  updatedAt : Z
}.
End AppraisalReview.

Module PTORequest.
Record t := mk {
  userId : string;
  startDate : Z;
  endDate : Z;
  status : string;
  type : string;
  reason : option string
}.
End PTORequest.

(** ** The store and the world of a request *)

Record Store := mkStore {
  users : gmap string User.t;
  projects : gmap string Project.t;
  tasks : gmap string Task.t;
  goals : gmap string Goal.t;
  timesheets : gmap string Timesheet.t;
  timesheetEntries : gmap string TimesheetEntry.t;
  appraisalCycles : gmap string AppraisalCycle.t;
  appraisalReviews : gmap string AppraisalReview.t;
  ptoRequests : gmap string PTORequest.t
}.

Definition set_users (m : gmap string User.t) (s : Store) : Store :=
  mkStore m (projects s) (tasks s) (goals s) (timesheets s)
    (timesheetEntries s) (appraisalCycles s) (appraisalReviews s) (ptoRequests s).
Definition set_tasks (m : gmap string Task.t) (s : Store) : Store :=
  mkStore (users s) (projects s) m (goals s) (timesheets s)
    (timesheetEntries s) (appraisalCycles s) (appraisalReviews s) (ptoRequests s).
Definition set_goals (m : gmap string Goal.t) (s : Store) : Store :=
  mkStore (users s) (projects s) (tasks s) m (timesheets s)
    (timesheetEntries s) (appraisalCycles s) (appraisalReviews s) (ptoRequests s).
Definition set_timesheets (m : gmap string Timesheet.t) (s : Store) : Store :=
  mkStore (users s) (projects s) (tasks s) (goals s) m
    (timesheetEntries s) (appraisalCycles s) (appraisalReviews s) (ptoRequests s).
Definition set_timesheetEntries (m : gmap string TimesheetEntry.t) (s : Store) : Store :=
  mkStore (users s) (projects s) (tasks s) (goals s) (timesheets s)
    m (appraisalCycles s) (appraisalReviews s) (ptoRequests s).
Definition set_appraisalReviews (m : gmap string AppraisalReview.t) (s : Store) : Store :=
  mkStore (users s) (projects s) (tasks s) (goals s) (timesheets s)
    (timesheetEntries s) (appraisalCycles s) m (ptoRequests s).

(** The world a server action runs in: the store, and the view paths
    marked stale by [revalidatePath], most recent first. *)
Record World := mkWorld {
  db : Store;
  revalidated : list string
}.

(** ** Request environment *)

Record SessionUser := mkSessionUser {
  id : option string;
  name : option string;
  email : option string
}.

Record Session := mkSession { user : option SessionUser }.

(** What a request reads from outside the store: the result of [auth()],
    the clock ([new Date()]), the local time zone, and the parser
    behind [new Date(string)] ([None] for an Invalid Date). *)
Record Env := mkEnv {
  session : option Session;
  now : Z;
  tz : JsDate.Zone;
  parseDate : string -> option Z
}.

(** [session?.user?.id] when it is truthy: a missing session, user or id
    and the empty id all count as no caller. *)
Definition callerId (env : Env) : option string :=
  match session env with
  | Some s =>
      match user s with
      | Some u =>
          match id u with
          | Some i => if decide (i = "") then None else Some i
          | None => None
          end
      | None => None
      end
  | None => None
  end.

(** ** The action monad: state over [World], with exceptions

    A store call either returns or throws; what was written before a
    throw stays written (the actions open no transaction).  The text of
    the errors of the Prisma client is not in the sources: the messages
    thrown below stand for it. *)

Inductive Outcome (A : Type) :=
| Return (a : A)
| Throw (message : string).
Arguments Return {A} a.
Arguments Throw {A} message.

Definition M (A : Type) : Type := World -> Outcome A * World.

Definition ret {A} (a : A) : M A := fun w => (Return a, w).
Definition throw {A} (message : string) : M A := fun w => (Throw message, w).
Definition bind {A B} (m : M A) (k : A -> M B) : M B :=
  fun w =>
    match m w with
    | (Return a, w') => k a w'
    | (Throw e, w') => (Throw e, w')
    end.

Notation "'let*' x ':=' m 'in' k" := (bind m (fun x => k))
  (at level 10, x pattern, m at level 100, k at level 200).
Notation "m ';;' k" := (bind m (fun _ => k))
  (at level 100, k at level 200, right associativity).

(** Reading and writing the store. *)
Definition query {A} (f : Store -> A) : M A := fun w => (Return (f (db w)), w).
Definition write (f : Store -> Store) : M unit :=
  fun w => (Return tt, mkWorld (f (db w)) (revalidated w)).

(** [revalidatePath(path)]. *)
Definition revalidatePath (path : string) : M unit :=
  fun w => (Return tt, mkWorld (db w) (path :: revalidated w)).

(** The uniform response envelope. *)
Inductive ActionResponse (T : Type) :=
| Success (data : option T) (message : option string)
| Failure (error : string).
Arguments Success {T} data message.
Arguments Failure {T} error.

(** [try { body } catch (error) { return handler(error.message) }]. *)
Definition try_catch {T} (body : M (ActionResponse T))
    (handler : string -> ActionResponse T) : World -> ActionResponse T * World :=
  fun w =>
    match body w with
    | (Return r, w') => (r, w')
    | (Throw e, w') => (handler e, w')
    end.

(** Awaiting another server action from inside an action. *)
Definition await {T} (action : World -> ActionResponse T * World)
    : M (ActionResponse T) :=
  fun w => let '(r, w') := action w in (Return r, w').

(** ** Prisma client operations on a table *)

Module Prisma.
Section Table.
Context {A : Type}.
Variable get : Store -> gmap string A.
Variable set : gmap string A -> Store -> Store.

(** [findMany({ where })]: the matching rows, in the order the store
    enumerates them. *)
Definition findMany (where_ : string -> A -> bool) : M (list (string * A)) :=
  query (fun s => List.filter (fun r => where_ r.1 r.2) (map_to_list (get s))).

(** [findFirst({ where })]. *)
Definition findFirst (where_ : string -> A -> bool) : M (option (string * A)) :=
  query (fun s => head (List.filter (fun r => where_ r.1 r.2) (map_to_list (get s)))).

(** [findUnique({ where: { id } })]. *)
Definition findUnique (i : string) : M (option A) :=
  query (fun s => get s !! i).

(** [count({ where })]. *)
Definition count (where_ : string -> A -> bool) : M nat :=
  query (fun s => length (List.filter (fun r => where_ r.1 r.2) (map_to_list (get s)))).

(** [aggregate({ where, _sum: { col: true } })._sum.col]: [null] when
    no row matches; otherwise the store starts from the value of the first
    matching row and adds the others to it, one after the other. *)
Definition aggregateSum (where_ : string -> A -> bool) (col : A -> float)
    : M (option float) :=
  query (fun s =>
    match List.filter (fun r => where_ r.1 r.2) (map_to_list (get s)) with
    | [] => None
    | r :: found =>
        Some (fold_left PrimFloat.add (List.map (fun r => col r.2) found) (col r.2))
    end).

(** [create({ data })]: the store picks a key not in use. *)
Definition create (row : A) : M (string * A) :=
  let* tbl := query get in
  let i := fresh (dom tbl) in
  write (set (<[i := row]> tbl));;
  ret (i, row).

(** [update({ where: { id }, data })]; throws when no row has the key. *)
Definition update (i : string) (f : A -> A) : M (string * A) :=
  let* tbl := query get in
  match tbl !! i with
  | Some row =>
      write (set (<[i := f row]> tbl));;
      ret (i, f row)
  | None => throw "Record to update not found."
  end.

(** [delete({ where: { id } })]; throws when no row has the key. *)
Definition delete (i : string) : M (string * A) :=
  let* tbl := query get in
  match tbl !! i with
  | Some row =>
      write (set (base.delete i tbl));;
      ret (i, row)
  | None => throw "Record to delete does not exist."
  end.
End Table.
End Prisma.

(** [new Date(s)] handed to the store: an Invalid Date is refused by the
    client before any query is sent. *)
Definition newDate (env : Env) (s : string) : M Z :=
  match parseDate env s with
  | Some t => ret t
  | None => throw "Invalid Date"
  end.

(** Truthiness of a string: only the empty string is falsy. *)
Definition nonEmpty (s : string) : bool := if decide (s = "") then false else true.

(** A stable sort by a total preorder given as a boolean: the order
    [Array.prototype.sort] and [orderBy] produce. *)
Fixpoint insertBy {A} (le : A -> A -> bool) (x : A) (l : list A) : list A :=
  match l with
  | [] => [x]
  | y :: l' => if le x y then x :: l else y :: insertBy le x l'
  end.

Definition orderBy {A} (le : A -> A -> bool) (l : list A) : list A :=
  foldr (insertBy le) [] l.

(** Ascending order on a nullable date column: nulls come last. *)
Definition nullableDateLe (x y : option Z) : bool :=
  match x, y with
  | Some a, Some b => a <=? b
  | Some _, None => true
  | None, Some _ => false
  | None, None => true
  end.

(** ** src/app/actions/employee-goals.ts *)

Module CreateGoalData.
Record t := mk {
  title : string;
  description : option string;
  targetDate : option string;
  category : option string;
  priority : option string
}.
End CreateGoalData.

Module UpdateGoalData.
Record t := mk {
  title : option string;
  description : option string;
  targetDate : option string;
  progress : option float;
  status : option string
}.
End UpdateGoalData.

Module GoalFilter.
Record t := mk { status : option string; category : option string }.
End GoalFilter.

Module GoalStats.
Record t := mk {
  total : nat;
  active : nat;
  completed : nat;
  inProgress : nat;
  avgProgress : float
}.
End GoalStats.

(** [orderBy: [{ status: 'asc' }, { targetDate: 'asc' }]]. *)
Definition goalOrder (a b : string * Goal.t) : bool :=
  if decide (Goal.status a.2 = Goal.status b.2)
  then nullableDateLe (Goal.targetDate a.2) (Goal.targetDate b.2)
  else String.leb (Goal.status a.2) (Goal.status b.2).

(** The [where] clause [{ id: goalId, userId: session.user.id }]. *)
Definition ownGoal (goalId uid : string) (i : string) (g : Goal.t) : bool :=
  bool_decide (i = goalId) && bool_decide (Goal.userId g = uid).

Definition getMyGoals (env : Env) : World -> ActionResponse (list (string * Goal.t)) * World :=
  try_catch
    (match callerId env with
     | None => ret (Failure "Unauthorized")
     | Some uid =>
         let* found := Prisma.findMany goals
                         (fun _ g => bool_decide (Goal.userId g = uid)) in
         ret (Success (Some (orderBy goalOrder found)) None)
     end)
    (fun _ => Failure "Failed to fetch goals").

Definition createGoal (env : Env) (data : CreateGoalData.t)
    : World -> ActionResponse (string * Goal.t) * World :=
  try_catch
    (match callerId env with
     | None => ret (Failure "Unauthorized")
     | Some uid =>
         let* target :=
           match CreateGoalData.targetDate data with
           | Some s => if nonEmpty s
                       then (let* t := newDate env s in ret (Some t))
                       else ret None
           | None => ret None
           end in
         let* goal := Prisma.create goals set_goals
                        (Goal.mk uid (CreateGoalData.title data)
                           (CreateGoalData.description data) target
                           0%float "active" (now env)) in
         revalidatePath "/employee/goals";;
         revalidatePath "/employee";;
         ret (Success (Some goal) None)
     end)
    (fun _ => Failure "Failed to create goal").

(** The effect of [prisma.goal.update({ data: updateData })]: a field
    left undefined in the payload keeps its stored value. *)
Definition applyGoalUpdate (data : UpdateGoalData.t) (target : option Z)
    (g : Goal.t) : Goal.t :=
  Goal.mk (Goal.userId g)
    (default (Goal.title g) (UpdateGoalData.title data))
    (match UpdateGoalData.description data with
     | Some d => Some d
     | None => Goal.description g
     end)
    (match target with Some t => Some t | None => Goal.targetDate g end)
    (default (Goal.progress g) (UpdateGoalData.progress data))
    (default (Goal.status g) (UpdateGoalData.status data))
    (Goal.updatedAt g).

Definition updateGoal (env : Env) (goalId : string) (data : UpdateGoalData.t)
    : World -> ActionResponse (string * Goal.t) * World :=
  try_catch
    (match callerId env with
     | None => ret (Failure "Unauthorized")
     | Some uid =>
         let* goal := Prisma.findFirst goals (ownGoal goalId uid) in
         match goal with
         | None => ret (Failure "Goal not found or access denied")
         | Some _ =>
             (* updateData.targetDate is a Date when data.targetDate is
                truthy; an empty string is passed on as it is and refused
                by the client. *)
             let* target :=
               match UpdateGoalData.targetDate data with
               | Some s => if nonEmpty s
                           then (let* t := newDate env s in ret (Some t))
                           else throw "Invalid value for argument targetDate"
               | None => ret None
               end in
             let* updatedGoal := Prisma.update goals set_goals goalId
                                   (applyGoalUpdate data target) in
             revalidatePath "/employee/goals";;
             revalidatePath "/employee";;
             ret (Success (Some updatedGoal) None)
         end
     end)
    (fun _ => Failure "Failed to update goal").

(** [Math.max(0, Math.min(100, progress))]. *)
Definition validProgress (progress : float) : float :=
  Num.max 0%float (Num.min 100%float progress).

(** The status derived from the clamped progress and the stored status. *)
Definition deriveStatus (valid : float) (status : string) : string :=
  if Num.leb 100%float valid then "completed"
  else if Num.ltb 0%float valid && bool_decide (status = "active") then "in-progress"
  else status.

Definition updateGoalProgress (env : Env) (goalId : string) (progress : float)
    : World -> ActionResponse (string * Goal.t) * World :=
  try_catch
    (match callerId env with
     | None => ret (Failure "Unauthorized")
     | Some uid =>
         let* goal := Prisma.findFirst goals (ownGoal goalId uid) in
         match goal with
         | None => ret (Failure "Goal not found or access denied")
         | Some (_, goal) =>
             let valid := validProgress progress in
             let status := deriveStatus valid (Goal.status goal) in
             let* updatedGoal :=
               Prisma.update goals set_goals goalId
                 (fun g => Goal.mk (Goal.userId g) (Goal.title g)
                             (Goal.description g) (Goal.targetDate g)
                             valid status (now env)) in
             revalidatePath "/employee/goals";;
             ret (Success (Some updatedGoal) None)
         end
     end)
    (fun _ => Failure "Failed to update progress").

Definition deleteGoal (env : Env) (goalId : string)
    : World -> ActionResponse unit * World :=
  try_catch
    (match callerId env with
     | None => ret (Failure "Unauthorized")
     | Some uid =>
         let* goal := Prisma.findFirst goals (ownGoal goalId uid) in
         match goal with
         | None => ret (Failure "Goal not found or access denied")
         | Some _ =>
             Prisma.delete goals set_goals goalId;;
             revalidatePath "/employee/goals";;
             revalidatePath "/employee";;
             ret (Success None None)
         end
     end)
    (fun _ => Failure "Failed to delete goal").

Definition getGoalStats (env : Env) : World -> ActionResponse GoalStats.t * World :=
  try_catch
    (match callerId env with
     | None => ret (Failure "Unauthorized")
     | Some uid =>
         let mine (g : Goal.t) := bool_decide (Goal.userId g = uid) in
         let withStatus (s : string) (_ : string) (g : Goal.t) :=
           mine g && bool_decide (Goal.status g = s) in
         let* total := Prisma.count goals (fun _ g => mine g) in
         let* active := Prisma.count goals (withStatus "active") in
         let* completed := Prisma.count goals (withStatus "completed") in
         let* inProgress := Prisma.count goals (withStatus "in-progress") in
         let* found := Prisma.findMany goals (fun _ g => mine g) in
         let avgProgress :=
           match found with
           | [] => 0%float
           | _ => (Num.sum (List.map (fun r => Goal.progress r.2) found)
                   / Num.ofNat (length found))%float
           end in
         ret (Success (Some (GoalStats.mk total active completed inProgress
                               (Num.round avgProgress))) None)
     end)
    (fun _ => Failure "Failed to fetch goal statistics").

Definition getFilteredGoals (env : Env) (filter : GoalFilter.t)
    : World -> ActionResponse (list (string * Goal.t)) * World :=
  try_catch
    (match callerId env with
     | None => ret (Failure "Unauthorized")
     | Some uid =>
         let whereClause (_ : string) (g : Goal.t) :=
           bool_decide (Goal.userId g = uid) &&
           match GoalFilter.status filter with
           | Some s => if nonEmpty s then bool_decide (Goal.status g = s) else true
           | None => true
           end in
         let* found := Prisma.findMany goals whereClause in
         ret (Success (Some (orderBy goalOrder found)) None)
     end)
    (fun _ => Failure "Failed to fetch filtered goals").

(** ** src/app/actions/employee-tasks.ts *)

Module CreateTaskData.
Record t := mk {
  title : string;
  description : option string;
  priority : option string;
  projectId : option string;
  dueDate : option string;
  estimatedHours : option float
}.
End CreateTaskData.

Module TaskStats.
Record t := mk { total : nat; inProgress : nat; completed : nat; overdue : nat }.
End TaskStats.

(** The status argument of [updateTaskStatus]. *)
Inductive TaskStatus := TODO | IN_PROGRESS | IN_REVIEW | BLOCKED | DONE.

Definition taskStatusName (s : TaskStatus) : string :=
  match s with
  | TODO => "TODO"
  | IN_PROGRESS => "IN_PROGRESS"
  | IN_REVIEW => "IN_REVIEW"
  | BLOCKED => "BLOCKED"
  | DONE => "DONE"
  end.

(** A task with [include: { project: { select: { id, name } } }]. *)
Definition TaskWithProject : Type := string * Task.t * option (string * string).

Definition includeProject (s : Store) (r : string * Task.t) : TaskWithProject :=
  (r, match Task.projectId r.2 with
      | Some p => (fun pr => (p, Project.name pr)) <$> projects s !! p
      | None => None
      end).

(** [s || fallback] on an optional string. *)
Definition strOr (s : option string) (fallback : option string) : option string :=
  match s with
  | Some v => if nonEmpty v then Some v else fallback
  | None => fallback
  end.

(** [orderBy: [{ dueDate: 'asc' }, { createdAt: 'desc' }]]. *)
Definition taskOrder (a b : TaskWithProject) : bool :=
  if decide (Task.dueDate a.1.2 = Task.dueDate b.1.2)
  then Task.createdAt b.1.2 <=? Task.createdAt a.1.2
  else nullableDateLe (Task.dueDate a.1.2) (Task.dueDate b.1.2).

(** The [where] clause [{ id: taskId, assigneeId: session.user.id }]. *)
Definition ownTask (taskId uid : string) (i : string) (t : Task.t) : bool :=
  bool_decide (i = taskId) && bool_decide (Task.assigneeId t = Some uid).

(** A range filter [{ gte, lte }] on a nullable date column. *)
Definition dateBetween (lo hi : Z) (d : option Z) : bool :=
  match d with
  | Some t => (lo <=? t) && (t <=? hi)
  | None => false
  end.

(** A filter [{ lt }] on a nullable date column. *)
Definition dateBefore (hi : Z) (d : option Z) : bool :=
  match d with
  | Some t => t <? hi
  | None => false
  end.

Definition createTask (env : Env) (data : CreateTaskData.t)
    : World -> ActionResponse TaskWithProject * World :=
  try_catch
    (match callerId env with
     | None => ret (Failure "Unauthorized")
     | Some uid =>
         let* due :=
           match CreateTaskData.dueDate data with
           | Some s => if nonEmpty s
                       then (let* t := newDate env s in ret (Some t))
                       else ret None
           | None => ret None
           end in
         let* task :=
           Prisma.create tasks set_tasks
             (Task.mk (CreateTaskData.title data)
                (CreateTaskData.description data)
                "TODO"
                (default "MEDIUM" (strOr (CreateTaskData.priority data) None))
                due
                (strOr (CreateTaskData.projectId data) None)
                (Some uid) (Some uid)
                (match CreateTaskData.estimatedHours data with
                 | Some h => if Num.truthy h then Some h else None
                 | None => None
                 end)
                None (now env) (now env)) in
         let* withProject := query (fun s => includeProject s task) in
         revalidatePath "/employee/my-work";;
         revalidatePath "/employee";;
         ret (Success (Some withProject) None)
     end)
    (fun _ => Failure "Failed to create task").

Definition getMyTasks (env : Env)
    : World -> ActionResponse (list TaskWithProject) * World :=
  try_catch
    (match callerId env with
     | None => ret (Failure "Unauthorized")
     | Some uid =>
         let* found := Prisma.findMany tasks
                         (fun _ t => bool_decide (Task.assigneeId t = Some uid)) in
         let* joined := query (fun s => List.map (includeProject s) found) in
         ret (Success (Some (orderBy taskOrder joined)) None)
     end)
    (fun _ => Failure "Failed to fetch tasks").

Definition getMyTaskStats (env : Env) : World -> ActionResponse TaskStats.t * World :=
  try_catch
    (match callerId env with
     | None => ret (Failure "Unauthorized")
     | Some uid =>
         let mine (t : Task.t) := bool_decide (Task.assigneeId t = Some uid) in
         let* total := Prisma.count tasks (fun _ t => mine t) in
         let* inProgress := Prisma.count tasks
             (fun _ t => mine t && bool_decide (Task.status t = "IN_PROGRESS")) in
         let* completed := Prisma.count tasks
             (fun _ t => mine t && bool_decide (Task.status t = "DONE")) in
         let* overdue := Prisma.count tasks
             (fun _ t => mine t && negb (bool_decide (Task.status t = "DONE"))
                         && dateBefore (now env) (Task.dueDate t)) in
         ret (Success (Some (TaskStats.mk total inProgress completed overdue)) None)
     end)
    (fun _ => Failure "Failed to fetch task statistics").

Definition updateTaskStatus (env : Env) (taskId : string) (status : TaskStatus)
    : World -> ActionResponse (string * Task.t) * World :=
  try_catch
    (match callerId env with
     | None => ret (Failure "Unauthorized")
     | Some uid =>
         let* task := Prisma.findFirst tasks (ownTask taskId uid) in
         match task with
         | None => ret (Failure "Task not found or access denied")
         | Some _ =>
             let* updatedTask :=
               Prisma.update tasks set_tasks taskId
                 (fun t => Task.mk (Task.title t) (Task.description t)
                             (taskStatusName status) (Task.priority t)
                             (Task.dueDate t) (Task.projectId t)
                             (Task.assigneeId t) (Task.reporterId t)
                             (Task.estimatedHours t) (Task.actualHours t)
                             (Task.createdAt t) (now env)) in
             revalidatePath "/employee/my-work";;
             revalidatePath "/employee";;
             ret (Success (Some updatedTask) None)
         end
     end)
    (fun _ => Failure "Failed to update task status").

Definition logTaskHours (env : Env) (taskId : string) (hours : float)
    : World -> ActionResponse (string * Task.t) * World :=
  try_catch
    (match callerId env with
     | None => ret (Failure "Unauthorized")
     | Some uid =>
         let* task := Prisma.findFirst tasks (ownTask taskId uid) in
         match task with
         | None => ret (Failure "Task not found or access denied")
         | Some (_, task) =>
             let currentHours := Num.orZero (Task.actualHours task) in
             let* updatedTask :=
               Prisma.update tasks set_tasks taskId
                 (fun t => Task.mk (Task.title t) (Task.description t)
                             (Task.status t) (Task.priority t)
                             (Task.dueDate t) (Task.projectId t)
                             (Task.assigneeId t) (Task.reporterId t)
                             (Task.estimatedHours t)
                             (Some (currentHours + hours)%float)
                             (Task.createdAt t) (now env)) in
             revalidatePath "/employee/my-work";;
             ret (Success (Some updatedTask) None)
         end
     end)
    (fun _ => Failure "Failed to log hours").

Definition getFilteredTasks (env : Env) (filter : string)
    : World -> ActionResponse (list TaskWithProject) * World :=
  try_catch
    (match callerId env with
     | None => ret (Failure "Unauthorized")
     | Some uid =>
         let today := now env in
         let weekFromNow :=
           JsDate.setDate (tz env) (now env) (JsDate.getDate (tz env) today + 7) in
         let mine (t : Task.t) := bool_decide (Task.assigneeId t = Some uid) in
         let whereClause (_ : string) (t : Task.t) : bool :=
           if decide (filter = "today") then
             let dayStart := JsDate.setHours (tz env) today 0 0 0 0 in
             let dayEnd := JsDate.setHours (tz env) dayStart 23 59 59 999 in
             mine t && dateBetween dayStart dayEnd (Task.dueDate t)
           else if decide (filter = "week") then
             mine t && dateBetween today weekFromNow (Task.dueDate t)
           else if decide (filter = "overdue") then
             mine t && dateBefore (now env) (Task.dueDate t)
             && negb (bool_decide (Task.status t = "DONE"))
           else if decide (filter = "blocked") then
             mine t && bool_decide (Task.status t = "BLOCKED")
           else mine t in
         let* found := Prisma.findMany tasks whereClause in
         let* joined := query (fun s => List.map (includeProject s) found) in
         ret (Success (Some (orderBy taskOrder joined)) None)
     end)
    (fun _ => Failure "Failed to fetch filtered tasks").

(** ** src/app/actions/employee-appraisal.ts *)

Module AppraisalStats.
Record t := mk {
  total : nat;
  draft : nat;
  inProgress : nat;
  completed : nat;
  avgRating : float
}.
End AppraisalStats.

(** A review with [include: { cycle }]. *)
Definition ReviewWithCycle : Type :=
  string * AppraisalReview.t * option (string * AppraisalCycle.t).

Definition includeCycle (s : Store) (r : string * AppraisalReview.t) : ReviewWithCycle :=
  (r, (fun c => (AppraisalReview.cycleId r.2, c))
        <$> appraisalCycles s !! AppraisalReview.cycleId r.2).

(** The [where] clause [{ id: appraisalId, userId: session.user.id }]. *)
Definition ownReview (appraisalId uid : string) (i : string)
    (a : AppraisalReview.t) : bool :=
  bool_decide (i = appraisalId) && bool_decide (AppraisalReview.userId a = uid).

Definition getMyAppraisals (env : Env)
    : World -> ActionResponse (list ReviewWithCycle) * World :=
  try_catch
    (match callerId env with
     | None => ret (Failure "Unauthorized")
     | Some uid =>
         let* found := Prisma.findMany appraisalReviews
             (fun _ a => bool_decide (AppraisalReview.userId a = uid)) in
         let* joined := query (fun s => List.map (includeCycle s) found) in
         ret (Success
                (Some (orderBy
                         (fun a b => AppraisalReview.createdAt b.1.2
                                     <=? AppraisalReview.createdAt a.1.2)
                         joined)) None)
     end)
    (fun _ => Failure "Failed to fetch appraisals").

Definition getCurrentAppraisal (env : Env)
    : World -> ActionResponse (option ReviewWithCycle) * World :=
  try_catch
    (match callerId env with
     | None => ret (Failure "Unauthorized")
     | Some uid =>
         let* activeCycle :=
           Prisma.findFirst appraisalCycles
             (fun _ c =>
                (bool_decide (AppraisalCycle.status c = AS_DRAFT)
                 || bool_decide (AppraisalCycle.status c = AS_IN_PROGRESS))
                && (AppraisalCycle.startDate c <=? now env)
                && (now env <=? AppraisalCycle.endDate c)) in
         match activeCycle with
         | None => ret (Success (Some None) None)
         | Some (cycleId, _) =>
             let* appraisal :=
               Prisma.findFirst appraisalReviews
                 (fun _ a => bool_decide (AppraisalReview.cycleId a = cycleId)
                             && bool_decide (AppraisalReview.userId a = uid)) in
             let* appraisal :=
               match appraisal with
               | Some a => ret a
               | None =>
                   Prisma.create appraisalReviews set_appraisalReviews
                     (AppraisalReview.mk cycleId uid None None None AS_DRAFT
                        None (now env) (now env))
               end in
             let* joined := query (fun s => includeCycle s appraisal) in
             ret (Success (Some (Some joined)) None)
         end
     end)
    (fun _ => Failure "Failed to fetch current appraisal").

Definition updateSelfReview (env : Env) (appraisalId : string)
    (selfReview : string) (rating : option float)
    : World -> ActionResponse (string * AppraisalReview.t) * World :=
  try_catch
    (match callerId env with
     | None => ret (Failure "Unauthorized")
     | Some uid =>
         let* appraisal := Prisma.findFirst appraisalReviews (ownReview appraisalId uid) in
         match appraisal with
         | None => ret (Failure "Appraisal not found or access denied")
         | Some (_, appraisal) =>
             if decide (AppraisalReview.status appraisal = AS_COMPLETED)
             then ret (Failure "Cannot edit completed appraisal")
             else
               let* updatedAppraisal :=
                 Prisma.update appraisalReviews set_appraisalReviews appraisalId
                   (fun a => AppraisalReview.mk
                               (AppraisalReview.cycleId a) (AppraisalReview.userId a)
                               (Some selfReview)
                               (match rating with
                                | Some r => Some r
                                | None => AppraisalReview.rating a
                                end)
                               (AppraisalReview.finalRating a)
                               (AppraisalReview.status a)
                               (AppraisalReview.submittedAt a)
                               (AppraisalReview.createdAt a) (now env)) in
               revalidatePath "/employee/appraisal";;
               ret (Success (Some updatedAppraisal) None)
         end
     end)
    (fun _ => Failure "Failed to update self-review").

Definition submitAppraisal (env : Env) (appraisalId : string)
    : World -> ActionResponse (string * AppraisalReview.t) * World :=
  try_catch
    (match callerId env with
     | None => ret (Failure "Unauthorized")
     | Some uid =>
         let* appraisal := Prisma.findFirst appraisalReviews (ownReview appraisalId uid) in
         match appraisal with
         | None => ret (Failure "Appraisal not found or access denied")
         | Some (_, appraisal) =>
             if decide (AppraisalReview.status appraisal = AS_DRAFT) then
               match strOr (AppraisalReview.selfReview appraisal) None with
               | None => ret (Failure "Self-review is required before submission")
               | Some _ =>
                   let* updatedAppraisal :=
                     Prisma.update appraisalReviews set_appraisalReviews appraisalId
                       (fun a => AppraisalReview.mk
                                   (AppraisalReview.cycleId a) (AppraisalReview.userId a)
                                   (AppraisalReview.selfReview a)
                                   (AppraisalReview.rating a)
                                   (AppraisalReview.finalRating a)
                                   AS_IN_PROGRESS
                                   (Some (now env))
                                   (AppraisalReview.createdAt a) (now env)) in
                   revalidatePath "/employee/appraisal";;
                   ret (Success (Some updatedAppraisal) None)
               end
             else ret (Failure "Appraisal is not in draft status")
         end
     end)
    (fun _ => Failure "Failed to submit appraisal").

Definition getAppraisalStats (env : Env)
    : World -> ActionResponse AppraisalStats.t * World :=
  try_catch
    (match callerId env with
     | None => ret (Failure "Unauthorized")
     | Some uid =>
         let mine (a : AppraisalReview.t) :=
           bool_decide (AppraisalReview.userId a = uid) in
         let withStatus (st : AppraisalStatus) (_ : string) (a : AppraisalReview.t) :=
           mine a && bool_decide (AppraisalReview.status a = st) in
         let* total := Prisma.count appraisalReviews (fun _ a => mine a) in
         let* draft := Prisma.count appraisalReviews (withStatus AS_DRAFT) in
         let* inProgress := Prisma.count appraisalReviews (withStatus AS_IN_PROGRESS) in
         let* completed := Prisma.count appraisalReviews (withStatus AS_COMPLETED) in
         let* completedAppraisals :=
           Prisma.findMany appraisalReviews
             (fun i a => withStatus AS_COMPLETED i a
                         && bool_decide (is_Some (AppraisalReview.finalRating a))) in
         let avgRating :=
           match completedAppraisals with
           | [] => 0%float
           | _ => (Num.sum (List.map
                              (fun r => Num.orZero (AppraisalReview.finalRating r.2))
                              completedAppraisals)
                   / Num.ofNat (length completedAppraisals))%float
           end in
         ret (Success
                (Some (AppraisalStats.mk total draft inProgress completed
                         (Num.round (avgRating * 10) / 10)%float)) None)
     end)
    (fun _ => Failure "Failed to fetch appraisal statistics").

Definition getAppraisalById (env : Env) (appraisalId : string)
    : World -> ActionResponse ReviewWithCycle * World :=
  try_catch
    (match callerId env with
     | None => ret (Failure "Unauthorized")
     | Some uid =>
         let* appraisal := Prisma.findFirst appraisalReviews (ownReview appraisalId uid) in
         match appraisal with
         | None => ret (Failure "Appraisal not found or access denied")
         | Some a =>
             let* joined := query (fun s => includeCycle s a) in
             ret (Success (Some joined) None)
         end
     end)
    (fun _ => Failure "Failed to fetch appraisal").

(** ** src/app/actions/employee-timesheet.ts *)

Module AddEntryData.
Record t := mk {
  date : string;
  projectId : string;
  hours : float;
  description : option string;
  billable : option bool
}.
End AddEntryData.

Module UpdateEntryData.
Record t := mk {
  hours : option float;
  description : option string;
  billable : option bool
}.
End UpdateEntryData.

Module TimesheetStats.
Record t := mk { totalHours : float; billableHours : float; nonBillableHours : float }.
End TimesheetStats.

(** An entry with [include: { project: { select: { id, name } } }]. *)
Definition EntryWithProject : Type :=
  string * TimesheetEntry.t * option (string * string).

Definition includeEntryProject (s : Store) (r : string * TimesheetEntry.t)
    : EntryWithProject :=
  (r, (fun pr => (TimesheetEntry.projectId r.2, Project.name pr))
        <$> projects s !! TimesheetEntry.projectId r.2).

(** The entries of a timesheet, as [include: { entries }] lists them. *)
Definition entriesOf (s : Store) (timesheetId : string) : list EntryWithProject :=
  List.map (includeEntryProject s)
    (List.filter
       (fun r => bool_decide (TimesheetEntry.timesheetId r.2 = timesheetId))
       (map_to_list (timesheetEntries s))).

(** Week bucketing: Monday 00:00:00.000 and Sunday 23:59:59.999 (local
    time) of the week of [d]. *)
Definition weekBounds (tz : JsDate.Zone) (d : Z) : Z * Z :=
  let dayOfWeek := JsDate.getDay tz d in
  let weekStart := d in
  let weekStart :=
    JsDate.setDate tz weekStart
      (JsDate.getDate tz d - (if dayOfWeek =? 0 then 6 else dayOfWeek - 1)) in
  let weekStart := JsDate.setHours tz weekStart 0 0 0 0 in
  let weekEnd := weekStart in
  let weekEnd := JsDate.setDate tz weekEnd (JsDate.getDate tz weekStart + 6) in
  let weekEnd := JsDate.setHours tz weekEnd 23 59 59 999 in
  (weekStart, weekEnd).

(** The [where] clause [{ userId, weekStart }]. *)
Definition weekOf (uid : string) (weekStart : Z) (_ : string) (t : Timesheet.t) : bool :=
  bool_decide (Timesheet.userId t = uid) && (Timesheet.weekStart t =? weekStart).

(** The [where] clause [{ id: entryId, timesheet: { userId } }]. *)
Definition ownEntry (tss : gmap string Timesheet.t) (entryId uid : string)
    (i : string) (e : TimesheetEntry.t) : bool :=
  bool_decide (i = entryId) &&
  match tss !! TimesheetEntry.timesheetId e with
  | Some t => bool_decide (Timesheet.userId t = uid)
  | None => false
  end.

(** The [where] clause [{ timesheetId }]. *)
Definition inTimesheet (timesheetId : string) (_ : string) (e : TimesheetEntry.t) : bool :=
  bool_decide (TimesheetEntry.timesheetId e = timesheetId).

Definition setTotalHours (total : float) (t : Timesheet.t) : Timesheet.t :=
  Timesheet.mk (Timesheet.userId t) (Timesheet.weekStart t) (Timesheet.weekEnd t)
    total (Timesheet.status t) (Timesheet.approverId t) (Timesheet.updatedAt t).

(** The aggregate recomputation shared by the three entry mutations. *)
Definition recomputeTotalHours (timesheetId : string) : M unit :=
  let* totalHours := Prisma.aggregateSum timesheetEntries (inTimesheet timesheetId)
                       TimesheetEntry.hours in
  Prisma.update timesheets set_timesheets timesheetId
    (setTotalHours (Num.orZero totalHours));;
  ret tt.

Definition getCurrentTimesheet (env : Env)
    : World -> ActionResponse (string * Timesheet.t * list EntryWithProject) * World :=
  try_catch
    (match callerId env with
     | None => ret (Failure "Unauthorized")
     | Some uid =>
         let '(weekStart, weekEnd) := weekBounds (tz env) (now env) in
         let* timesheet := Prisma.findFirst timesheets (weekOf uid weekStart) in
         match timesheet with
         | Some t =>
             let* entries := query (fun s => entriesOf s t.1) in
             ret (Success
                    (Some (t, orderBy
                                (fun a b => TimesheetEntry.date a.1.2
                                            <=? TimesheetEntry.date b.1.2)
                                entries)) None)
         | None =>
             let* t := Prisma.create timesheets set_timesheets
                         (Timesheet.mk uid weekStart weekEnd 0%float TS_DRAFT None (now env)) in
             let* entries := query (fun s => entriesOf s t.1) in
             ret (Success (Some (t, entries)) None)
         end
     end)
    (fun _ => Failure "Failed to fetch timesheet").

Definition addTimesheetEntry (env : Env) (data : AddEntryData.t)
    : World -> ActionResponse (string * TimesheetEntry.t) * World :=
  try_catch
    (match callerId env with
     | None => ret (Failure "Unauthorized")
     | Some uid =>
         if negb (nonEmpty (AddEntryData.date data)) then
           ret (Failure "Date is required")
         else if negb (nonEmpty (AddEntryData.projectId data)) then
           ret (Failure "Project is required")
         else if negb (Num.truthy (AddEntryData.hours data))
                 || Num.leb (AddEntryData.hours data) 0%float
                 || Num.ltb 24%float (AddEntryData.hours data) then
           ret (Failure "Hours must be between 0 and 24")
         else
           let* entryDate := newDate env (AddEntryData.date data) in
           let '(weekStart, weekEnd) := weekBounds (tz env) entryDate in
           let* timesheet := Prisma.findFirst timesheets (weekOf uid weekStart) in
           let* timesheet :=
             match timesheet with
             | Some t => ret t
             | None =>
                 Prisma.create timesheets set_timesheets
                   (Timesheet.mk uid weekStart weekEnd 0%float TS_DRAFT None (now env))
             end in
           if decide (Timesheet.status timesheet.2 = TS_APPROVED) then
             ret (Failure "Cannot edit approved timesheet")
           else
             let* entry :=
               Prisma.create timesheetEntries set_timesheetEntries
                 (TimesheetEntry.mk timesheet.1 entryDate
                    (AddEntryData.projectId data) (AddEntryData.hours data)
                    (AddEntryData.description data)
                    (default false (AddEntryData.billable data))) in
             recomputeTotalHours timesheet.1;;
             revalidatePath "/employee/timesheet";;
             revalidatePath "/employee";;
             ret (Success (Some entry) None)
     end)
    (fun message => Failure message).

(** The effect of [prisma.timesheetEntry.update({ data })]. *)
Definition applyEntryUpdate (data : UpdateEntryData.t) (e : TimesheetEntry.t)
    : TimesheetEntry.t :=
  TimesheetEntry.mk (TimesheetEntry.timesheetId e) (TimesheetEntry.date e)
    (TimesheetEntry.projectId e)
    (default (TimesheetEntry.hours e) (UpdateEntryData.hours data))
    (match UpdateEntryData.description data with
     | Some d => Some d
     | None => TimesheetEntry.description e
     end)
    (default (TimesheetEntry.billable e) (UpdateEntryData.billable data)).

(** [findFirst({ where: { id, timesheet: { userId } }, include: { timesheet } })]. *)
Definition findOwnEntry (entryId uid : string)
    : M (option (string * TimesheetEntry.t * Timesheet.t)) :=
  let* tss := query timesheets in
  let* entry := Prisma.findFirst timesheetEntries (ownEntry tss entryId uid) in
  match entry with
  | Some e =>
      match tss !! TimesheetEntry.timesheetId e.2 with
      | Some t => ret (Some (e, t))
      | None => ret None
      end
  | None => ret None
  end.

Definition updateTimesheetEntry (env : Env) (entryId : string)
    (data : UpdateEntryData.t)
    : World -> ActionResponse (string * TimesheetEntry.t) * World :=
  try_catch
    (match callerId env with
     | None => ret (Failure "Unauthorized")
     | Some uid =>
         let* entry := findOwnEntry entryId uid in
         match entry with
         | None => ret (Failure "Entry not found or access denied")
         | Some (entry, timesheet) =>
             if decide (Timesheet.status timesheet = TS_APPROVED) then
               ret (Failure "Cannot edit approved timesheet")
             else
               let* updatedEntry :=
                 Prisma.update timesheetEntries set_timesheetEntries entryId
                   (applyEntryUpdate data) in
               recomputeTotalHours (TimesheetEntry.timesheetId entry.2);;
               revalidatePath "/employee/timesheet";;
               ret (Success (Some updatedEntry) None)
         end
     end)
    (fun _ => Failure "Failed to update entry").

Definition deleteTimesheetEntry (env : Env) (entryId : string)
    : World -> ActionResponse unit * World :=
  try_catch
    (match callerId env with
     | None => ret (Failure "Unauthorized")
     | Some uid =>
         let* entry := findOwnEntry entryId uid in
         match entry with
         | None => ret (Failure "Entry not found or access denied")
         | Some (entry, timesheet) =>
             if decide (Timesheet.status timesheet = TS_APPROVED) then
               ret (Failure "Cannot delete from approved timesheet")
             else
               Prisma.delete timesheetEntries set_timesheetEntries entryId;;
               recomputeTotalHours (TimesheetEntry.timesheetId entry.2);;
               revalidatePath "/employee/timesheet";;
               ret (Success None None)
         end
     end)
    (fun _ => Failure "Failed to delete entry").

Definition submitTimesheet (env : Env) (timesheetId : string)
    : World -> ActionResponse (string * Timesheet.t) * World :=
  try_catch
    (match callerId env with
     | None => ret (Failure "Unauthorized")
     | Some uid =>
         let* timesheet :=
           Prisma.findFirst timesheets
             (fun i t => bool_decide (i = timesheetId)
                         && bool_decide (Timesheet.userId t = uid)) in
         match timesheet with
         | None => ret (Failure "Timesheet not found or access denied")
         | Some (_, timesheet) =>
             if decide (Timesheet.status timesheet = TS_DRAFT) then
               let* updatedTimesheet :=
                 Prisma.update timesheets set_timesheets timesheetId
                   (fun t => Timesheet.mk (Timesheet.userId t)
                               (Timesheet.weekStart t) (Timesheet.weekEnd t)
                               (Timesheet.totalHours t) TS_SUBMITTED
                               (Timesheet.approverId t) (now env)) in
               revalidatePath "/employee/timesheet";;
               ret (Success (Some updatedTimesheet) None)
             else ret (Failure "Timesheet is not in draft status")
         end
     end)
    (fun _ => Failure "Failed to submit timesheet").

(** [take: n]: the first [n] rows, or the last [-n] when [n] is negative. *)
Definition takeRows {A} (n : Z) (l : list A) : list A :=
  if 0 <=? n then firstn (Z.to_nat n) l
  else rev (firstn (Z.to_nat (- n)) (rev l)).

(** A timesheet of the history: its entries and its approver
    ([select: { id, name, email }]). *)
Definition TimesheetHistoryRow : Type :=
  string * Timesheet.t * list EntryWithProject
  * option (string * option string * option string).

Definition includeHistory (s : Store) (r : string * Timesheet.t) : TimesheetHistoryRow :=
  (r, entriesOf s r.1,
   match Timesheet.approverId r.2 with
   | Some a => (fun u => (a, User.name u, User.email u)) <$> users s !! a
   | None => None
   end).

Definition getTimesheetHistory (env : Env) (limit : option Z)
    : World -> ActionResponse (list TimesheetHistoryRow) * World :=
  try_catch
    (match callerId env with
     | None => ret (Failure "Unauthorized")
     | Some uid =>
         let limit := default 10 limit in
         let* found := Prisma.findMany timesheets
                         (fun _ t => bool_decide (Timesheet.userId t = uid)) in
         let ordered :=
           orderBy (fun a b => Timesheet.weekStart b.2 <=? Timesheet.weekStart a.2)
             found in
         let* joined := query (fun s => List.map (includeHistory s)
                                          (takeRows limit ordered)) in
         ret (Success (Some joined) None)
     end)
    (fun _ => Failure "Failed to fetch timesheet history").

Definition getTimesheetStats (env : Env)
    : World -> ActionResponse TimesheetStats.t * World :=
  try_catch
    (match callerId env with
     | None => ret (Failure "Unauthorized")
     | Some uid =>
         let currentMonth := JsDate.setDate (tz env) (now env) 1 in
         let currentMonth := JsDate.setHours (tz env) currentMonth 0 0 0 0 in
         let* tss := query timesheets in
         let mine (e : TimesheetEntry.t) :=
           match tss !! TimesheetEntry.timesheetId e with
           | Some t => bool_decide (Timesheet.userId t = uid)
           | None => false
           end && (currentMonth <=? TimesheetEntry.date e) in
         let* totalHours :=
           Prisma.aggregateSum timesheetEntries (fun _ e => mine e)
             TimesheetEntry.hours in
         let* billableHours :=
           Prisma.aggregateSum timesheetEntries
             (fun _ e => mine e && TimesheetEntry.billable e)
             TimesheetEntry.hours in
         ret (Success
                (Some (TimesheetStats.mk
                         (Num.orZero totalHours)
                         (Num.orZero billableHours)
                         (Num.orZero totalHours - Num.orZero billableHours)%float))
                None)
     end)
    (fun _ => Failure "Failed to fetch statistics").

Definition getAvailableProjects (env : Env)
    : World -> ActionResponse (list (string * Project.t)) * World :=
  try_catch
    (match callerId env with
     | None => ret (Failure "Unauthorized")
     | Some _ =>
         let* found := Prisma.findMany projects
             (fun _ p => negb (bool_decide (Project.status p = "COMPLETED"))) in
         ret (Success
                (Some (orderBy (fun a b => String.leb (Project.name a.2)
                                             (Project.name b.2)) found)) None)
     end)
    (fun _ => Failure "Failed to fetch projects").

(** ** src/app/actions/employee-calendar.ts *)

Inductive EventType := task | meeting | deadline | milestone | appraisal | pto.

#[global] Instance EventType_eq_dec : EqDecision EventType.
Proof. solve_decision. Defined.

Module CalendarEvent.
Record t := mk {
  id : string;
  title : string;
  type : EventType;
  date : Z;
  time : option string;
  priority : option string;
  status : option string;
  description : option string
}.
End CalendarEvent.

Module CalendarStats.
Record t := mk { todayTasks : nat; weekTasks : nat; upcomingDeadlines : nat }.
End CalendarStats.

Definition appraisalStatusName (s : AppraisalStatus) : string :=
  match s with
  | AS_DRAFT => "DRAFT"
  | AS_IN_PROGRESS => "IN_PROGRESS"
  | AS_COMPLETED => "COMPLETED"
  end.

(** A date handed to the store must be valid ([None] is an Invalid Date). *)
Definition validDate (d : option Z) : M Z :=
  match d with
  | Some t => ret t
  | None => throw "Invalid Date"
  end.

Definition taskEvent (r : string * Task.t) : option CalendarEvent.t :=
  match Task.dueDate r.2 with
  | Some due =>
      Some (CalendarEvent.mk ("task-" +:+ r.1) (Task.title r.2) task due None
              (strOr (Some (Task.priority r.2)) None)
              (strOr (Some (Task.status r.2)) None)
              (strOr (Task.description r.2) None))
  | None => None
  end.

Definition appraisalEvent (r : string * AppraisalReview.t * AppraisalCycle.t)
    : CalendarEvent.t :=
  CalendarEvent.mk ("appraisal-" +:+ r.1.1)
    ("Appraisal: " +:+ AppraisalCycle.name r.2) appraisal
    (AppraisalCycle.endDate r.2) None None
    (Some (appraisalStatusName (AppraisalReview.status r.1.2))) None.

Definition ptoEvent (r : string * PTORequest.t) (currentDate : Z) : CalendarEvent.t :=
  CalendarEvent.mk
    ("pto-" +:+ r.1 +:+ "-" +:+ JsDate.toISOString currentDate)
    ("PTO: " +:+ PTORequest.type r.2) pto currentDate None None
    (Some (PTORequest.status r.2))
    (strOr (PTORequest.reason r.2) None).

(** The [while (currentDate <= endDate)] loop over the days of one PTO
    request.  The loop ends when a step takes [currentDate] past
    [endDate]; the fuel bounds the number of turns, and the result is
    [None] when it runs out first. *)
Fixpoint ptoDays (fuel : nat) (tz : JsDate.Zone) (start end_ : Z)
    (r : string * PTORequest.t) (currentDate endDate : Z)
    : option (list CalendarEvent.t) :=
  match fuel with
  | O => None
  | S fuel' =>
      if currentDate <=? endDate then
        let pushed :=
          if (start <=? currentDate) && (currentDate <=? end_)
          then [ptoEvent r currentDate] else [] in
        let next := JsDate.setDate tz currentDate (JsDate.getDate tz currentDate + 1) in
        match ptoDays fuel' tz start end_ r next endDate with
        | Some rest => Some (pushed ++ rest)%list
        | None => None
        end
      else Some []
  end.

(** Fuel that lets the loop over one request run to its exit in every
    zone where a step of one calendar day moves the clock on by twelve
    hours or more ([ptoEvents_exits]): one turn more than the half days
    from the start of the request to its end. *)
Definition ptoFuel (r : string * PTORequest.t) : nat :=
  S (Z.to_nat ((PTORequest.endDate r.2 - PTORequest.startDate r.2)
               / (JsDate.msPerDay / 2) + 1)).

(** [ptoRequests.flatMap(...)]. *)
Fixpoint ptoEvents (tz : JsDate.Zone) (start end_ : Z)
    (found : list (string * PTORequest.t))
    : option (list CalendarEvent.t) :=
  match found with
  | [] => Some []
  | r :: found' =>
      match ptoDays (ptoFuel r) tz start end_ r
              (PTORequest.startDate r.2) (PTORequest.endDate r.2),
            ptoEvents tz start end_ found' with
      | Some days, Some rest => Some (days ++ rest)%list
      | _, _ => None
      end
  end.

(** The reviews of the caller whose cycle ends in the window, with the
    cycle ([include: { cycle }]). *)
Definition reviewsEndingIn (s : Store) (uid : string) (start end_ : Z)
    : list (string * AppraisalReview.t * AppraisalCycle.t) :=
  omap (fun r : string * AppraisalReview.t =>
          if bool_decide (AppraisalReview.userId r.2 = uid) then
            match appraisalCycles s !! AppraisalReview.cycleId r.2 with
            | Some c =>
                if (start <=? AppraisalCycle.endDate c)
                   && (AppraisalCycle.endDate c <=? end_)
                then Some (r, c) else None
            | None => None
            end
          else None)
       (map_to_list (appraisalReviews s)).

Definition getMyCalendarEvents (env : Env) (startDate endDate : option (option Z))
    : World -> ActionResponse (list CalendarEvent.t) * World :=
  try_catch
    (match callerId env with
     | None => ret (Failure "Unauthorized")
     | Some uid =>
         let start := default (Some (now env)) startDate in
         let end_ :=
           default ((fun s => s + 30 * 24 * 60 * 60 * 1000) <$> start) endDate in
         let* start := validDate start in
         let* end_ := validDate end_ in
         let* tasks :=
           Prisma.findMany tasks
             (fun _ t => bool_decide (Task.assigneeId t = Some uid)
                         && dateBetween start end_ (Task.dueDate t)) in
         let* appraisals := query (fun s => reviewsEndingIn s uid start end_) in
         let* ptoRequests :=
           Prisma.findMany ptoRequests
             (fun _ p => bool_decide (PTORequest.userId p = uid)
                         && bool_decide (PTORequest.status p = "APPROVED")
                         && (dateBetween start end_ (Some (PTORequest.startDate p))
                             || dateBetween start end_ (Some (PTORequest.endDate p)))) in
         match ptoEvents (tz env) start end_ ptoRequests with
         | None => throw "the loop over the days of a request does not exit"
         | Some ptoDays =>
             let events :=
               (omap taskEvent tasks ++ List.map appraisalEvent appraisals ++ ptoDays)%list in
             ret (Success
                    (Some (orderBy (fun a b => CalendarEvent.date a <=? CalendarEvent.date b)
                             events)) None)
         end
     end)
    (fun _ => Failure "Failed to fetch calendar events").

Definition getEventsForDate (env : Env) (date : string)
    : World -> ActionResponse (list CalendarEvent.t) * World :=
  try_catch
    (match callerId env with
     | None => ret (Failure "Unauthorized")
     | Some _ =>
         let targetDate := parseDate env date in
         let startOfDay := (fun t => JsDate.setHours (tz env) t 0 0 0 0) <$> targetDate in
         let endOfDay := (fun t => JsDate.setHours (tz env) t 23 59 59 999) <$> targetDate in
         await (getMyCalendarEvents env (Some startOfDay) (Some endOfDay))
     end)
    (fun _ => Failure "Failed to fetch events for date").

Definition getUpcomingEvents (env : Env)
    : World -> ActionResponse (list CalendarEvent.t) * World :=
  try_catch
    (match callerId env with
     | None => ret (Failure "Unauthorized")
     | Some _ =>
         let today := JsDate.setHours (tz env) (now env) 0 0 0 0 in
         let nextWeek := JsDate.setDate (tz env) today (JsDate.getDate (tz env) today + 7) in
         let nextWeek := JsDate.setHours (tz env) nextWeek 23 59 59 999 in
         await (getMyCalendarEvents env (Some (Some today)) (Some (Some nextWeek)))
     end)
    (fun _ => Failure "Failed to fetch upcoming events").

Definition getMonthEvents (env : Env) (year month : Z)
    : World -> ActionResponse (list CalendarEvent.t) * World :=
  try_catch
    (match callerId env with
     | None => ret (Failure "Unauthorized")
     | Some _ =>
         let startOfMonth := JsDate.fromFields (tz env) year month 1 0 0 0 0 in
         let endOfMonth := JsDate.fromFields (tz env) year (month + 1) 0 23 59 59 999 in
         await (getMyCalendarEvents env (Some (Some startOfMonth)) (Some (Some endOfMonth)))
     end)
    (fun _ => Failure "Failed to fetch month events").

Definition getCalendarStats (env : Env)
    : World -> ActionResponse CalendarStats.t * World :=
  try_catch
    (match callerId env with
     | None => ret (Failure "Unauthorized")
     | Some uid =>
         let today := JsDate.setHours (tz env) (now env) 0 0 0 0 in
         let nextWeek := JsDate.setDate (tz env) today (JsDate.getDate (tz env) today + 7) in
         let mine (t : Task.t) := bool_decide (Task.assigneeId t = Some uid) in
         let* todayTasks := Prisma.count tasks
             (fun _ t => mine t
                && dateBetween today (today + 24 * 60 * 60 * 1000 - 1) (Task.dueDate t)) in
         let* weekTasks := Prisma.count tasks
             (fun _ t => mine t && dateBetween today nextWeek (Task.dueDate t)) in
         let* upcomingDeadlines := Prisma.count tasks
             (fun _ t => mine t && negb (bool_decide (Task.status t = "DONE"))
                         && dateBetween today nextWeek (Task.dueDate t)) in
         ret (Success (Some (CalendarStats.mk todayTasks weekTasks upcomingDeadlines)) None)
     end)
    (fun _ => Failure "Failed to fetch calendar statistics").

Definition checkPTOForDate (env : Env) (date : string)
    : World -> ActionResponse (option (string * PTORequest.t)) * World :=
  try_catch
    (match callerId env with
     | None => ret (Failure "Unauthorized")
     | Some uid =>
         let* targetDate := newDate env date in
         let* ptoRequest :=
           Prisma.findFirst ptoRequests
             (fun _ p => bool_decide (PTORequest.userId p = uid)
                         && bool_decide (PTORequest.status p = "APPROVED")
                         && (PTORequest.startDate p <=? targetDate)
                         && (targetDate <=? PTORequest.endDate p)) in
         ret (Success (Some ptoRequest) None)
     end)
    (fun _ => Failure "Failed to check PTO").

(** ** src/app/actions/settings.ts *)

Module PreferencesPayload.
Record t := mk {
  theme : option string;
  language : option string;
  timezone : option string
}.
End PreferencesPayload.

Module Preferences.
Record t := mk { theme : string; language : string; timezone : string }.
End Preferences.

Module NotificationPayload.
Record t := mk {
  emailNotifications : option bool;
  projectUpdates : option bool;
  teamActivity : option bool;
  loginAlerts : option bool
}.
End NotificationPayload.

Module NotificationSettings.
Record t := mk {
  emailNotifications : bool;
  projectUpdates : bool;
  teamActivity : bool;
  loginAlerts : bool
}.
End NotificationSettings.

(** [JSON.stringify(preferencesData)] read back as a [jsonb] object. *)
Definition preferencesJson (p : Preferences.t) : gmap string Json :=
  <["theme" := JString (Preferences.theme p)]>
    (<["language" := JString (Preferences.language p)]>
       (<["timezone" := JString (Preferences.timezone p)]> ∅)).

Definition notificationJson (n : NotificationSettings.t) : gmap string Json :=
  <["emailNotifications" := JBool (NotificationSettings.emailNotifications n)]>
    (<["projectUpdates" := JBool (NotificationSettings.projectUpdates n)]>
       (<["teamActivity" := JBool (NotificationSettings.teamActivity n)]>
          (<["loginAlerts" := JBool (NotificationSettings.loginAlerts n)]> ∅))).

(** [UPDATE "users" SET col = v WHERE "id" = uid]: the row of [uid] when
    there is one, no row otherwise. *)
Definition updateUserRow (uid : string) (f : User.t -> User.t) : M unit :=
  write (fun s => set_users (alter f uid (users s)) s).

Definition preferencesData (payload : PreferencesPayload.t) : Preferences.t :=
  Preferences.mk
    (default "light" (strOr (PreferencesPayload.theme payload) None))
    (default "English" (strOr (PreferencesPayload.language payload) None))
    (default "UTC" (strOr (PreferencesPayload.timezone payload) None)).

Definition updateUserPreferences (env : Env) (payload : PreferencesPayload.t)
    : World -> ActionResponse Preferences.t * World :=
  match callerId env with
  | None => fun w => (Failure "Unauthorized", w)
  | Some uid =>
      try_catch
        (let data := preferencesData payload in
         updateUserRow uid
           (fun u => User.mk (User.name u) (User.email u)
                       (Some (preferencesJson data))
                       (User.notificationSettings u));;
         revalidatePath "/settings";;
         revalidatePath "/profile";;
         ret (Success (Some data) (Some "Preferences updated successfully")))
        (fun _ => Failure "Failed to update preferences")
  end.

Definition updateNotificationSettings (env : Env) (payload : NotificationPayload.t)
    : World -> ActionResponse NotificationSettings.t * World :=
  match callerId env with
  | None => fun w => (Failure "Unauthorized", w)
  | Some uid =>
      try_catch
        (let data :=
           NotificationSettings.mk
             (default true (NotificationPayload.emailNotifications payload))
             (default true (NotificationPayload.projectUpdates payload))
             (default true (NotificationPayload.teamActivity payload))
             (default true (NotificationPayload.loginAlerts payload)) in
         updateUserRow uid
           (fun u => User.mk (User.name u) (User.email u)
                       (User.preferences u)
                       (Some (notificationJson data)));;
         revalidatePath "/settings";;
         ret (Success (Some data) (Some "Notification settings updated successfully")))
        (fun _ => Failure "Failed to update notification settings")
  end.

Definition deleteUserAccount (env : Env) : World -> ActionResponse unit * World :=
  match callerId env with
  | None => fun w => (Failure "Unauthorized", w)
  | Some _ =>
      try_catch
        ((* Add delete logic here when ready *)
         ret (Success None (Some "Account deleted successfully")))
        (fun _ => Failure "Failed to delete account")
  end.

(** ** src/app/api/user/preferences/route.ts *)

(** The HTTP answer of the route: a status and a JSON body, which is
    either [{ preferences }] or [{ error }]. *)
Inductive RouteResponse :=
| JsonPreferences (status : Z) (preferences : gmap string Json)
| JsonError (status : Z) (error : string).

(** [GET /api/user/preferences]: a route handler, not a server action;
    its envelope is its own. *)
Definition GET (env : Env) : World -> RouteResponse * World :=
  fun w =>
    match
      (match callerId env with
       | None => ret (JsonError 401 "Unauthorized")
       | Some uid =>
           let* user := Prisma.findUnique users uid in
           ret (JsonPreferences 200
                  (match user with
                   | Some u =>
                       default (preferencesJson (Preferences.mk "light" "English" "UTC"))
                         (User.preferences u)
                   | None => preferencesJson (Preferences.mk "light" "English" "UTC")
                   end))
       end) w
    with
    | (Return r, w') => (r, w')
    | (Throw _, w') => (JsonError 500 "Internal server error", w')
    end.

(** ** Vocabulary of the properties *)

(** Ownership of a row by a caller, directly or through the parent
    timesheet of an entry. *)
Definition ownsGoal (s : Store) (uid goalId : string) : bool :=
  match goals s !! goalId with
  | Some g => bool_decide (Goal.userId g = uid)
  | None => false
  end.

Definition ownsTask (s : Store) (uid taskId : string) : bool :=
  match tasks s !! taskId with
  | Some t => bool_decide (Task.assigneeId t = Some uid)
  | None => false
  end.

Definition ownsReview (s : Store) (uid appraisalId : string) : bool :=
  match appraisalReviews s !! appraisalId with
  | Some a => bool_decide (AppraisalReview.userId a = uid)
  | None => false
  end.

Definition ownsTimesheet (s : Store) (uid timesheetId : string) : bool :=
  match timesheets s !! timesheetId with
  | Some t => bool_decide (Timesheet.userId t = uid)
  | None => false
  end.

Definition ownsEntry (s : Store) (uid entryId : string) : bool :=
  match timesheetEntries s !! entryId with
  | Some e => ownsTimesheet s uid (TimesheetEntry.timesheetId e)
  | None => false
  end.

(** The hours of the entries that belong to a timesheet, in the order
    the store enumerates the entries. *)
Definition entryHours (s : Store) (timesheetId : string) : list float :=
  List.map (fun r => TimesheetEntry.hours r.2)
    (List.filter
       (fun r => bool_decide (TimesheetEntry.timesheetId r.2 = timesheetId))
       (map_to_list (timesheetEntries s))).

(** The sum of a first number and the numbers after it, added one after
    the other in binary64 arithmetic. *)
Fixpoint addUp (first : float) (others : list float) : float :=
  match others with
  | [] => first
  | h :: others' => addUp (first + h)%float others'
  end.

(** Two numbers that are equal as numbers ([===]): the two zeros are
    equal, NaN equals nothing. *)
Definition sameNumber (x y : float) : Prop := Num.eqb x y = true.

(** The invariant of the derived aggregate: the timesheet exists; when it
    has no entry its stored [totalHours] is 0; otherwise [totalHours] is
    the sum of the hours of its entries as a number, and is 0 in the one
    case where that sum is not a number (NaN). *)
Definition totalHoursConsistent (s : Store) (timesheetId : string) : Prop :=
  exists t,
    timesheets s !! timesheetId = Some t
    /\ match entryHours s timesheetId with
       | [] => Timesheet.totalHours t = 0%float
       | h :: hs =>
           if Num.isNaN (addUp h hs) then Timesheet.totalHours t = 0%float
           else sameNumber (Timesheet.totalHours t) (addUp h hs)
       end.

(** The conclusion shared by the ownership-scoped actions: the failure
    envelope ends in "not found or access denied" and the world, hence the
    targeted row, is as before. *)
Definition deniedAs {T} (what : string) (w : World)
    (result : ActionResponse T * World) : Prop :=
  result = (Failure (what +:+ " not found or access denied"), w).

(** The answer to a request without a caller: the envelope
    [{ success: false, error: "Unauthorized" }], in an untouched world (no
    store write, no path invalidated). *)
Definition refused {T} (w : World) (result : ActionResponse T * World) : Prop :=
  result = (Failure "Unauthorized", w).

(** The answer to a mutation that is turned down: some failure envelope,
    in an untouched world. *)
Definition rejected {T} (w : World) (result : ActionResponse T * World) : Prop :=
  exists error, result = (Failure error, w).

(** The number of days [weekBounds] steps back from a local time [l]:
    six on a Sunday, the weekday minus one otherwise (Monday is 1). *)
Definition daysSinceMonday (l : Z) : Z :=
  if JsDate.WeekDay l =? 0 then 6 else JsDate.WeekDay l - 1.

(** A local time value that the zone shows at some instant: converting it
    to UTC and back gives it again.  It fails for a local time that a
    transition skips. *)
Definition localTimeExists (tz : JsDate.Zone) (l : Z) : Prop :=
  JsDate.LocalTime tz (JsDate.UTC tz l) = l.

(** A local time value that the zone reads as a time of the same local
    day (as every local time that exists is). *)
Definition keepsDay (tz : JsDate.Zone) (l : Z) : Prop :=
  JsDate.Day (JsDate.LocalTime tz (JsDate.UTC tz l)) = JsDate.Day l.

(** A payload field that is omitted, or present and empty. *)
Definition omitted (field : option string) : Prop :=
  field = None \/ field = Some "".

(** The queries of [getMyCalendarEvents] for a caller and a window: the
    tasks of the caller due in the window, and the approved PTO requests
    of the caller that start or end in it. *)
Definition tasksDueIn (s : Store) (uid : string) (start end_ : Z)
    : list (string * Task.t) :=
  List.filter
    (fun r => bool_decide (Task.assigneeId r.2 = Some uid)
              && dateBetween start end_ (Task.dueDate r.2))
    (map_to_list (tasks s)).

Definition approvedPtoIn (s : Store) (uid : string) (start end_ : Z)
    : list (string * PTORequest.t) :=
  List.filter
    (fun r => bool_decide (PTORequest.userId r.2 = uid)
              && bool_decide (PTORequest.status r.2 = "APPROVED")
              && (dateBetween start end_ (Some (PTORequest.startDate r.2))
                  || dateBetween start end_ (Some (PTORequest.endDate r.2))))
    (map_to_list (ptoRequests s)).

(** One PTO event per day, for [n] days of 24 hours from [from]. *)
Fixpoint ptoSpan (r : string * PTORequest.t) (from : Z) (n : nat)
    : list CalendarEvent.t :=
  match n with
  | O => []
  | S n' => ptoEvent r from :: ptoSpan r (from + JsDate.msPerDay) n'
  end.

(** The step of the loop over the days of a request:
    [d.setDate(d.getDate() + 1)]. *)
Definition nextDay (tz : JsDate.Zone) (t : Z) : Z :=
  JsDate.setDate tz t (JsDate.getDate tz t + 1).

(** The [n] local days from [from] on last 24 hours each: no transition
    of the zone falls between them. *)
Definition plainDays (tz : JsDate.Zone) (from : Z) (n : nat) : Prop :=
  forall k : nat, (k < n)%nat ->
    nextDay tz (from + Z.of_nat k * JsDate.msPerDay)
    = from + Z.of_nat (S k) * JsDate.msPerDay.

(** Ascending order of two events by date. *)
Definition dateOrdered (a b : CalendarEvent.t) : Prop :=
  CalendarEvent.date a <= CalendarEvent.date b.

(** The number of events of one type in a list of calendar events. *)
Definition countType (ty : EventType) (events : list CalendarEvent.t) : nat :=
  length (List.filter (fun e => bool_decide (CalendarEvent.type e = ty)) events).

(** ** A sample world *)

Module Sample.

(** Sunday 1 November 2026, 00:00 UTC, and the days after it. *)
Definition sunday : Z := 20758 * JsDate.msPerDay.
Definition day (n : Z) : Z := sunday + n * JsDate.msPerDay.

Definition parse (s : string) : option Z :=
  if decide (s = "2026-11-01") then Some sunday
  else if decide (s = "2026-11-04") then Some (day 3)
  else if decide (s = "2026-11-13") then Some (day 12)
  else None.

Definition sessionOf (uid : string) : option Session :=
  Some (mkSession (Some (mkSessionUser (Some uid) None None))).

(** Time zones: UTC; India (UTC+05:30 all year); New York around the end
    of daylight-saving time on 1 November 2026 (UTC-04:00 until 06:00 UTC,
    UTC-05:00 after); Tehran around the start of daylight-saving time on
    22 March 2021 (UTC+03:30 until 21 March 20:30 UTC, which is local
    midnight, UTC+04:30 after). *)
Definition utc : JsDate.Zone := JsDate.fixedZone 0.
Definition kolkata : JsDate.Zone := JsDate.fixedZone 19800000.
Definition newYork : JsDate.Zone :=
  JsDate.transitionZone (-4 * JsDate.msPerHour) (-5 * JsDate.msPerHour)
    (sunday + 6 * JsDate.msPerHour).
Definition tehran : JsDate.Zone :=
  JsDate.transitionZone 12600000 16200000
    (18707 * JsDate.msPerDay + 20 * JsDate.msPerHour + 30 * JsDate.msPerMinute).

(** Alice is signed in; it is Wednesday 4 November 2026, 09:30 UTC. *)
Definition alice : Env :=
  mkEnv (sessionOf "alice") (day 3 + 9 * JsDate.msPerHour + 30 * JsDate.msPerMinute)
    utc parse.

(** Alice is signed in at the same time, on a server in New York. *)
Definition aliceInNewYork : Env :=
  mkEnv (sessionOf "alice") (day 3 + 9 * JsDate.msPerHour + 30 * JsDate.msPerMinute)
    newYork parse.

(** Bob is signed in, at the same time. *)
Definition bob : Env :=
  mkEnv (sessionOf "bob") (day 3 + 9 * JsDate.msPerHour + 30 * JsDate.msPerMinute)
    utc parse.

(** Nobody is signed in. *)
Definition visitor : Env := mkEnv None (day 3) utc parse.

(** A session whose user carries an empty id. *)
Definition blank : Env := mkEnv (sessionOf "") (day 3) utc parse.

Definition store : Store :=
  {| users :=
       <["alice" := User.mk (Some "Alice") (Some "alice@example.org")
                      (Some (<["theme" := JString "dark"]>
                               (<["language" := JString "Telugu"]>
                                  (<["timezone" := JString "Asia/Kolkata"]>
                                     (<["density" := JString "compact"]> ∅)))))
                      None]>
         (<["bob" := User.mk (Some "Bob") None None None]> ∅);
     projects := <["p1" := Project.mk "Website" "ACTIVE"]> ∅;
     tasks :=
       <["t1" := Task.mk "Review budget" None "TODO" "HIGH" (Some (day 5))
                   (Some "p1") (Some "bob") (Some "bob") None None sunday sunday]>
         (<["t2" := Task.mk "Ship release" None "IN_PROGRESS" "MEDIUM"
                      (Some (day 9)) (Some "p1") (Some "alice") (Some "alice")
                      (Some 5%float) None sunday sunday]> ∅);
     goals :=
       <["g1" := Goal.mk "bob" "Learn Rust" None None 10%float "active" sunday]>
         (<["g2" := Goal.mk "alice" "Run a marathon" None None 0%float "active" sunday]>
            (<["g3" := Goal.mk "alice" "Read more" None None 40%float "on-hold" sunday]> ∅));
     timesheets :=
       <["ts1" := Timesheet.mk "bob" (day 1) (day 8 - 1) 8%float TS_DRAFT None sunday]>
         (<["ts2" := Timesheet.mk "alice" (day 1) (day 8 - 1) 6.5%float TS_DRAFT
                       None sunday]>
            (<["ts3" := Timesheet.mk "alice" (day 8) (day 15 - 1) 7%float TS_APPROVED
                          (Some "bob") sunday]> ∅));
     timesheetEntries :=
       <["e1" := TimesheetEntry.mk "ts1" (day 2) "p1" 8%float None true]>
         (<["e2" := TimesheetEntry.mk "ts2" (day 2) "p1" 4%float None true]>
            (<["e3" := TimesheetEntry.mk "ts3" (day 9) "p1" 7%float None false]>
               (<["e4" := TimesheetEntry.mk "ts2" (day 3) "p1" 2.5%float None false]> ∅)));
     appraisalCycles :=
       <["c1" := AppraisalCycle.mk "H2 2026" (day (-120)) (day 10) AS_IN_PROGRESS]> ∅;
     appraisalReviews :=
       <["a1" := AppraisalReview.mk "c1" "bob" (Some "Did well") None None AS_DRAFT
                   None sunday sunday]>
         (<["a2" := AppraisalReview.mk "c1" "alice" None None None AS_DRAFT
                      None sunday sunday]> ∅);
     ptoRequests :=
       <["pto1" := PTORequest.mk "alice" (day 6) (day 8) "APPROVED" "VACATION" None]>
         (<["pto2" := PTORequest.mk "bob" (day 6) (day 7) "APPROVED" "SICK" None]> ∅)
  |}.

Definition world : World := mkWorld store [].

(** The same store where the only leave is one approved request of Alice
    for the three days 31 October, 1 November and 2 November 2026. *)
Definition leaveStore : Store :=
  mkStore (users store) (projects store) (tasks store) (goals store)
    (timesheets store) (timesheetEntries store) (appraisalCycles store)
    (appraisalReviews store)
    (<["pto3" := PTORequest.mk "alice" (day (-1)) (day 1) "APPROVED" "VACATION" None]> ∅).

Definition leaveWorld : World := mkWorld leaveStore [].

End Sample.

(** * Properties *)

(** ** Rows of a table selected by their key *)

Section KeyedRows.
Context {A : Type}.
Implicit Types (l : list (string * A)) (m : gmap string A).

Lemma filter_key_absent l k (Q : string -> A -> bool) :
  k ∉ l.*1 ->
  List.filter (fun r => bool_decide (r.1 = k) && Q r.1 r.2) l = [].
Proof.
  induction l as [|[i a] l IH]; intros Hk; [done|].
  cbn in *. apply not_elem_of_cons in Hk as [Hne Hk].
  rewrite bool_decide_eq_false_2 by congruence. cbn. auto.
Qed.

Lemma filter_key_present l k a (Q : string -> A -> bool) :
  NoDup l.*1 -> (k, a) ∈ l ->
  List.filter (fun r => bool_decide (r.1 = k) && Q r.1 r.2) l
  = if Q k a then [(k, a)] else [].
Proof.
  induction l as [|[i b] l IH]; intros Hnd Hin.
  - by apply elem_of_nil in Hin.
  - cbn in *. apply NoDup_cons in Hnd as [Hi Hnd].
    apply elem_of_cons in Hin as [Heq | Hin].
    + inversion Heq; subst i b.
      rewrite bool_decide_eq_true_2 by done. cbn.
      rewrite (filter_key_absent l k Q Hi). by destruct (Q k a).
    + assert (i <> k) as Hne.
      { intros ->. apply Hi. apply list_elem_of_fmap. by exists (k, a). }
      rewrite bool_decide_eq_false_2 by done. cbn. auto.
Qed.

Lemma filter_key_lookup m k (Q : string -> A -> bool) :
  List.filter (fun r => bool_decide (r.1 = k) && Q r.1 r.2) (map_to_list m)
  = match m !! k with
    | Some a => if Q k a then [(k, a)] else []
    | None => []
    end.
Proof.
  destruct (m !! k) as [a|] eqn:Hk.
  - apply filter_key_present.
    + apply NoDup_fst_map_to_list.
    + by apply elem_of_map_to_list.
  - apply filter_key_absent. intros Hin.
    apply list_elem_of_fmap in Hin as [[i a] [-> Hin]].
    apply elem_of_map_to_list in Hin. cbn in *. congruence.
Qed.

(** [findFirst] with the key in its [where] clause is a lookup. *)
Lemma findFirst_key (get : Store -> gmap string A) k (Q : string -> A -> bool) w :
  Prisma.findFirst get (fun i a => bool_decide (i = k) && Q i a) w
  = (Return (match get (db w) !! k with
             | Some a => if Q k a then Some (k, a) else None
             | None => None
             end), w).
Proof.
  unfold Prisma.findFirst, query. rewrite filter_key_lookup.
  destruct (get (db w) !! k) as [a|]; [|done]. by destruct (Q k a).
Qed.
End KeyedRows.

(** ** Ownership lookups of the actions *)

Lemma findFirst_ownGoal goalId uid w :
  Prisma.findFirst goals (ownGoal goalId uid) w
  = (Return (match goals (db w) !! goalId with
             | Some g => if bool_decide (Goal.userId g = uid)
                         then Some (goalId, g) else None
             | None => None
             end), w).
Proof.
  apply (findFirst_key goals goalId (fun _ g => bool_decide (Goal.userId g = uid))).
Qed.

Lemma findFirst_ownTask taskId uid w :
  Prisma.findFirst tasks (ownTask taskId uid) w
  = (Return (match tasks (db w) !! taskId with
             | Some t => if bool_decide (Task.assigneeId t = Some uid)
                         then Some (taskId, t) else None
             | None => None
             end), w).
Proof.
  apply (findFirst_key tasks taskId
           (fun _ t => bool_decide (Task.assigneeId t = Some uid))).
Qed.

Lemma findFirst_ownReview appraisalId uid w :
  Prisma.findFirst appraisalReviews (ownReview appraisalId uid) w
  = (Return (match appraisalReviews (db w) !! appraisalId with
             | Some a => if bool_decide (AppraisalReview.userId a = uid)
                         then Some (appraisalId, a) else None
             | None => None
             end), w).
Proof.
  apply (findFirst_key appraisalReviews appraisalId
           (fun _ a => bool_decide (AppraisalReview.userId a = uid))).
Qed.

Lemma findFirst_ownTimesheet timesheetId uid w :
  Prisma.findFirst timesheets
    (fun i t => bool_decide (i = timesheetId)
                && bool_decide (Timesheet.userId t = uid)) w
  = (Return (match timesheets (db w) !! timesheetId with
             | Some t => if bool_decide (Timesheet.userId t = uid)
                         then Some (timesheetId, t) else None
             | None => None
             end), w).
Proof.
  apply (findFirst_key timesheets timesheetId
           (fun _ t => bool_decide (Timesheet.userId t = uid))).
Qed.

(** The entry lookup through the parent timesheet, in closed form. *)
Lemma findOwnEntry_spec entryId uid w :
  findOwnEntry entryId uid w
  = (Return (match timesheetEntries (db w) !! entryId with
             | Some e =>
                 match timesheets (db w) !! TimesheetEntry.timesheetId e with
                 | Some t => if bool_decide (Timesheet.userId t = uid)
                             then Some (entryId, e, t) else None
                 | None => None
                 end
             | None => None
             end), w).
Proof.
  unfold findOwnEntry, bind. cbn [query].
  unfold ownEntry.
  rewrite (findFirst_key timesheetEntries entryId
             (fun _ e => match timesheets (db w) !! TimesheetEntry.timesheetId e with
                         | Some t => bool_decide (Timesheet.userId t = uid)
                         | None => false
                         end)).
  destruct (timesheetEntries (db w) !! entryId) as [e|]; [|done].
  destruct (timesheets (db w) !! TimesheetEntry.timesheetId e) as [t|] eqn:Ht; [|done].
  destruct (bool_decide (Timesheet.userId t = uid)); [|done].
  cbn. by rewrite Ht.
Qed.

Lemma findOwnEntry_foreign entryId uid w :
  ownsEntry (db w) uid entryId = false ->
  findOwnEntry entryId uid w = (Return None, w).
Proof.
  intros H. rewrite findOwnEntry_spec. unfold ownsEntry, ownsTimesheet in H.
  destruct (timesheetEntries (db w) !! entryId) as [e|]; [|done].
  destruct (timesheets (db w) !! TimesheetEntry.timesheetId e) as [t|]; [|done].
  by rewrite H.
Qed.

(** ** Store operations on a row that exists *)

Lemma update_found {A} (get : Store -> gmap string A) set i (f : A -> A) w row :
  get (db w) !! i = Some row ->
  Prisma.update get set i f w
  = (Return (i, f row),
     mkWorld (set (<[i := f row]> (get (db w))) (db w)) (revalidated w)).
Proof. intros H. unfold Prisma.update, bind, query. cbn. by rewrite H. Qed.

Lemma delete_found {A} (get : Store -> gmap string A) set i w row :
  get (db w) !! i = Some row ->
  Prisma.delete get set i w
  = (Return (i, row),
     mkWorld (set (base.delete i (get (db w))) (db w)) (revalidated w)).
Proof. intros H. unfold Prisma.delete, bind, query. cbn. by rewrite H. Qed.

(** ** Comparisons of numbers

    The comparisons of binary64 numbers are read through their
    specification ([SFcompare] on the sign, mantissa and exponent). *)

Module NumFacts.

Lemma SFcompare_antisym x y :
  SFcompare y x = CompOpp <$> SFcompare x y.
Proof.
  destruct x as [s1|s1| |s1 m1 e1], y as [s2|s2| |s2 m2 e2]; cbn;
    try reflexivity; try (by destruct s1, s2); try (by destruct s1); try (by destruct s2).
  f_equal. destruct s1, s2; try reflexivity.
  - rewrite (Z.compare_antisym e1 e2).
    destruct (e1 ?= e2)%Z; cbn; try reflexivity.
    rewrite (Pos.compare_cont_antisym m1 m2 Eq). cbn.
    by destruct (Pos.compare_cont Eq m1 m2).
  - rewrite (Z.compare_antisym e1 e2).
    destruct (e1 ?= e2)%Z; cbn; try reflexivity.
    rewrite (Pos.compare_cont_antisym m1 m2 Eq). reflexivity.
Qed.

Lemma SFcompare_refl x : x <> S754_nan -> SFcompare x x = Some Eq.
Proof.
  destruct x as [s|s| |s m e]; cbn; intros H; try done.
  - by destruct s.
  - rewrite Z.compare_refl. fold (Pos.compare m m). rewrite Pos.compare_refl.
    by destruct s.
Qed.

Lemma SFcompare_Eq_finite s1 m1 e1 s2 m2 e2 :
  SFcompare (S754_finite s1 m1 e1) (S754_finite s2 m2 e2) = Some Eq ->
  S754_finite s1 m1 e1 = S754_finite s2 m2 e2.
Proof.
  cbn. intros [= H]. destruct s1, s2; try discriminate.
  - destruct (e1 ?= e2)%Z eqn:E; try discriminate. apply Z.compare_eq in E as ->.
    fold (Pos.compare m1 m2) in H.
    destruct (m1 ?= m2)%positive eqn:Em; try discriminate.
    by apply Pos.compare_eq in Em as ->.
  - destruct (e1 ?= e2)%Z eqn:E; try discriminate. apply Z.compare_eq in E as ->.
    fold (Pos.compare m1 m2) in H.
    by apply Pos.compare_eq in H as ->.
Qed.

Lemma ltb_compare x y :
  Num.ltb x y
  = match SFcompare (Prim2SF x) (Prim2SF y) with Some Lt => true | _ => false end.
Proof. apply FloatAxioms.ltb_spec. Qed.

Lemma leb_compare x y :
  Num.leb x y
  = match SFcompare (Prim2SF x) (Prim2SF y) with Some (Lt | Eq) => true | _ => false end.
Proof.
  unfold Num.leb. rewrite FloatAxioms.leb_spec. unfold SFleb.
  by destruct (SFcompare _ _) as [[]|].
Qed.

Lemma eqb_compare x y :
  Num.eqb x y
  = match SFcompare (Prim2SF x) (Prim2SF y) with Some Eq => true | _ => false end.
Proof. apply FloatAxioms.eqb_spec. Qed.

Lemma isNaN_compare x :
  Num.isNaN x = match Prim2SF x with S754_nan => true | _ => false end.
Proof.
  unfold Num.isNaN, is_nan. rewrite FloatAxioms.eqb_spec. unfold SFeqb.
  destruct (Prim2SF x) eqn:E; try reflexivity; rewrite SFcompare_refl; done.
Qed.

Lemma compare_is_Some x y :
  Num.isNaN x = false -> Num.isNaN y = false ->
  is_Some (SFcompare (Prim2SF x) (Prim2SF y)).
Proof.
  rewrite !isNaN_compare.
  destruct (Prim2SF x) as [| | |], (Prim2SF y) as [| | |]; cbn; try done; by eexists.
Qed.

(** What compares is a number. *)
Lemma ltb_not_NaN x y : Num.ltb x y = true -> Num.isNaN x = false /\ Num.isNaN y = false.
Proof.
  rewrite ltb_compare, !isNaN_compare.
  by destruct (Prim2SF x) as [| | |], (Prim2SF y) as [| | |].
Qed.

Lemma eqb_not_NaN x y : Num.eqb x y = true -> Num.isNaN x = false /\ Num.isNaN y = false.
Proof.
  rewrite eqb_compare, !isNaN_compare.
  by destruct (Prim2SF x) as [| | |], (Prim2SF y) as [| | |].
Qed.

Lemma eqb_refl x : Num.isNaN x = false -> Num.eqb x x = true.
Proof. unfold Num.isNaN, is_nan, Num.eqb. by intros ->%negb_false_iff. Qed.

Lemma eqb_sym x y : Num.eqb x y = Num.eqb y x.
Proof.
  rewrite !eqb_compare, (SFcompare_antisym (Prim2SF y) (Prim2SF x)).
  by destruct (SFcompare _ _) as [[]|].
Qed.

Lemma ltb_asym x y : Num.ltb x y = true -> Num.ltb y x = false.
Proof.
  rewrite !ltb_compare, (SFcompare_antisym (Prim2SF x) (Prim2SF y)).
  by destruct (SFcompare _ _) as [[]|].
Qed.

Lemma ltb_leb x y : Num.ltb x y = true -> Num.leb x y = true.
Proof.
  rewrite ltb_compare, leb_compare. by destruct (SFcompare _ _) as [[]|].
Qed.

Lemma ltb_leb_false x y : Num.ltb x y = true -> Num.leb y x = false.
Proof.
  rewrite ltb_compare, leb_compare, (SFcompare_antisym (Prim2SF x) (Prim2SF y)).
  by destruct (SFcompare _ _) as [[]|].
Qed.

Lemma eqb_ltb x y : Num.eqb x y = true -> Num.ltb x y = false /\ Num.ltb y x = false.
Proof.
  rewrite !ltb_compare, eqb_compare, (SFcompare_antisym (Prim2SF x) (Prim2SF y)).
  by destruct (SFcompare _ _) as [[]|].
Qed.

(** Two numbers neither of which is below the other are equal. *)
Lemma trichotomy x y :
  Num.isNaN x = false -> Num.isNaN y = false ->
  Num.ltb x y = false -> Num.ltb y x = false -> Num.eqb x y = true.
Proof.
  intros Hx Hy. destruct (compare_is_Some x y Hx Hy) as [c Hc].
  rewrite !ltb_compare, eqb_compare, (SFcompare_antisym (Prim2SF x) (Prim2SF y)), Hc.
  by destruct c.
Qed.

(** A number that equals a finite number other than zero is that number. *)
Lemma eqb_eq x c s m e :
  Prim2SF c = S754_finite s m e -> Num.eqb x c = true -> x = c.
Proof.
  intros Hc. rewrite eqb_compare, Hc. intros H.
  apply Prim2SF_inj. rewrite Hc.
  destruct (Prim2SF x) as [s'|s'| |s' m' e'].
  - by destruct s.
  - by destruct s'.
  - done.
  - destruct (SFcompare (S754_finite s' m' e') (S754_finite s m e)) as [[]|] eqn:E;
      try done.
    by apply SFcompare_Eq_finite.
Qed.

(** What is below zero is below every positive number. *)
Lemma ltb_0_trans x c m e :
  Prim2SF c = S754_finite false m e -> Num.ltb x 0 = true -> Num.ltb x c = true.
Proof.
  intros Hc. rewrite !ltb_compare, Hc.
  replace (Prim2SF 0) with (S754_zero false) by reflexivity.
  by destruct (Prim2SF x) as [[]|[]| |[] m' e'].
Qed.

End NumFacts.

(** The arithmetic at a few numbers: a sum that rounds, [Math.round] at
    the halves and below zero, and the clamp of [updateGoalProgress] at the
    infinities, at NaN and at the negative zero. *)
Example sum_rounds : Num.sum [0.1; 0.2]%float = 0.30000000000000004%float.
Proof. reflexivity. Qed.

Example round_at_the_halves :
  Num.round 2.5 = 3%float /\ Num.round (-2.5) = (-2)%float
  /\ Num.round 0.49999999999999994 = 0%float /\ Num.round (-0.2) = (-0)%float
  /\ Num.round 3.7 = 4%float /\ Num.round (-3.7) = (-4)%float
  /\ Num.round infinity = infinity.
Proof. repeat split; reflexivity. Qed.

Example clamp_at_the_edges :
  validProgress infinity = 100%float /\ validProgress neg_infinity = 0%float
  /\ Num.isNaN (validProgress nan) = true /\ validProgress (-0) = 0%float.
Proof. repeat split; reflexivity. Qed.

(** ** C1: an id that is not the caller's is answered "not found" *)


(** The common proof: run the action up to its ownership lookup, which
    is a lookup by key, and read off the branch the hypothesis selects. *)
Ltac deny Hcaller :=
  unfold deniedAs;
  match goal with
  | |- ?action = _ =>
      let rec unfold_head t :=
        lazymatch t with
        | ?f _ => unfold_head f
        | ?f => unfold f
        end in
      unfold_head action
  end;
  unfold try_catch, bind; rewrite Hcaller;
  first
    [ rewrite findOwnEntry_foreign by assumption; reflexivity
    | rewrite ?findFirst_ownGoal, ?findFirst_ownTask, ?findFirst_ownReview,
        ?findFirst_ownTimesheet;
      match goal with
      | H : ?owns _ _ _ = false |- _ => unfold owns in H
      end;
      match goal with
      | H : match ?row with _ => _ end = false |- _ =>
          destruct row; [rewrite H | idtac]; reflexivity
      end ].

(** C1. For an authenticated caller, each action that targets a row by id
    (updateGoal, updateGoalProgress, deleteGoal, updateTimesheetEntry,
    deleteTimesheetEntry, submitTimesheet, updateSelfReview,
    submitAppraisal, getAppraisalById, updateTaskStatus, logTaskHours)
    answers an id that is not a row owned by the caller (directly, or
    through the parent timesheet of an entry) with the failure envelope
    "... not found or access denied" and leaves the world unchanged. *)
Theorem foreign_id_is_denied (env : Env) (uid : string) (w : World) :
  callerId env = Some uid ->
  (forall goalId data, ownsGoal (db w) uid goalId = false ->
     deniedAs "Goal" w (updateGoal env goalId data w)) /\
  (forall goalId progress, ownsGoal (db w) uid goalId = false ->
     deniedAs "Goal" w (updateGoalProgress env goalId progress w)) /\
  (forall goalId, ownsGoal (db w) uid goalId = false ->
     deniedAs "Goal" w (deleteGoal env goalId w)) /\
  (forall entryId data, ownsEntry (db w) uid entryId = false ->
     deniedAs "Entry" w (updateTimesheetEntry env entryId data w)) /\
  (forall entryId, ownsEntry (db w) uid entryId = false ->
     deniedAs "Entry" w (deleteTimesheetEntry env entryId w)) /\
  (forall timesheetId, ownsTimesheet (db w) uid timesheetId = false ->
     deniedAs "Timesheet" w (submitTimesheet env timesheetId w)) /\
  (forall appraisalId selfReview rating, ownsReview (db w) uid appraisalId = false ->
     deniedAs "Appraisal" w (updateSelfReview env appraisalId selfReview rating w)) /\
  (forall appraisalId, ownsReview (db w) uid appraisalId = false ->
     deniedAs "Appraisal" w (submitAppraisal env appraisalId w)) /\
  (forall appraisalId, ownsReview (db w) uid appraisalId = false ->
     deniedAs "Appraisal" w (getAppraisalById env appraisalId w)) /\
  (forall taskId status, ownsTask (db w) uid taskId = false ->
     deniedAs "Task" w (updateTaskStatus env taskId status w)) /\
  (forall taskId hours, ownsTask (db w) uid taskId = false ->
     deniedAs "Task" w (logTaskHours env taskId hours w)).
Proof.
  intros Hcaller.
  repeat apply conj; intros; deny Hcaller.
Qed.

(** Witness of C1: Alice addresses the rows of Bob. *)
Lemma foreign_id_is_denied_witness :
  deniedAs "Goal" Sample.world
    (updateGoal Sample.alice "g1"
       (UpdateGoalData.mk None None None (Some 90%float) None) Sample.world) /\
  deniedAs "Goal" Sample.world (updateGoalProgress Sample.alice "g1" 90%float Sample.world) /\
  deniedAs "Goal" Sample.world (deleteGoal Sample.alice "g1" Sample.world) /\
  deniedAs "Entry" Sample.world
    (updateTimesheetEntry Sample.alice "e1"
       (UpdateEntryData.mk (Some 1%float) None None) Sample.world) /\
  deniedAs "Entry" Sample.world (deleteTimesheetEntry Sample.alice "e1" Sample.world) /\
  deniedAs "Timesheet" Sample.world (submitTimesheet Sample.alice "ts1" Sample.world) /\
  deniedAs "Appraisal" Sample.world
    (updateSelfReview Sample.alice "a1" "mine now" None Sample.world) /\
  deniedAs "Appraisal" Sample.world (submitAppraisal Sample.alice "a1" Sample.world) /\
  deniedAs "Appraisal" Sample.world (getAppraisalById Sample.alice "a1" Sample.world) /\
  deniedAs "Task" Sample.world (updateTaskStatus Sample.alice "t1" DONE Sample.world) /\
  deniedAs "Task" Sample.world (logTaskHours Sample.alice "t1" 2%float Sample.world).
Proof.
  destruct (foreign_id_is_denied Sample.alice "alice" Sample.world eq_refl)
    as (H1 & H2 & H3 & H4 & H5 & H6 & H7 & H8 & H9 & H10 & H11).
  repeat apply conj;
    [ apply H1 | apply H2 | apply H3 | apply H4 | apply H5 | apply H6
    | apply H7 | apply H8 | apply H9 | apply H10 | apply H11 ];
    vm_compute; reflexivity.
Defined.

(** ** C2: no caller, no work *)


Ltac refuse Hcaller :=
  intros; unfold refused;
  match goal with
  | |- ?action = _ =>
      let head := eval cbv beta in action in
      let rec unfold_head t :=
        lazymatch t with
        | ?f _ => unfold_head f
        | ?f => unfold f
        end in
      unfold_head head
  end;
  unfold try_catch; rewrite Hcaller; reflexivity.

(** C2. When the request context yields no caller identity (no session,
    no user, no id, or an empty id), every server action of
    [src/app/actions] returns [Failure "Unauthorized"] and leaves the world
    as it was: it performs no store write of any kind. *)
Theorem no_caller_is_refused (env : Env) (w : World) :
  callerId env = None ->
  (* employee-goals.ts *)
  refused w (getMyGoals env w) /\
  (forall data, refused w (createGoal env data w)) /\
  (forall goalId data, refused w (updateGoal env goalId data w)) /\
  (forall goalId progress, refused w (updateGoalProgress env goalId progress w)) /\
  (forall goalId, refused w (deleteGoal env goalId w)) /\
  refused w (getGoalStats env w) /\
  (forall filter, refused w (getFilteredGoals env filter w)) /\
  (* employee-tasks.ts *)
  (forall data, refused w (createTask env data w)) /\
  refused w (getMyTasks env w) /\
  refused w (getMyTaskStats env w) /\
  (forall taskId status, refused w (updateTaskStatus env taskId status w)) /\
  (forall taskId hours, refused w (logTaskHours env taskId hours w)) /\
  (forall filter, refused w (getFilteredTasks env filter w)) /\
  (* employee-appraisal.ts *)
  refused w (getMyAppraisals env w) /\
  refused w (getCurrentAppraisal env w) /\
  (forall appraisalId selfReview rating,
     refused w (updateSelfReview env appraisalId selfReview rating w)) /\
  (forall appraisalId, refused w (submitAppraisal env appraisalId w)) /\
  refused w (getAppraisalStats env w) /\
  (forall appraisalId, refused w (getAppraisalById env appraisalId w)) /\
  (* employee-timesheet.ts *)
  refused w (getCurrentTimesheet env w) /\
  (forall data, refused w (addTimesheetEntry env data w)) /\
  (forall entryId data, refused w (updateTimesheetEntry env entryId data w)) /\
  (forall entryId, refused w (deleteTimesheetEntry env entryId w)) /\
  (forall timesheetId, refused w (submitTimesheet env timesheetId w)) /\
  (forall limit, refused w (getTimesheetHistory env limit w)) /\
  refused w (getTimesheetStats env w) /\
  refused w (getAvailableProjects env w) /\
  (* employee-calendar.ts *)
  (forall startDate endDate, refused w (getMyCalendarEvents env startDate endDate w)) /\
  (forall date, refused w (getEventsForDate env date w)) /\
  refused w (getUpcomingEvents env w) /\
  (forall year month, refused w (getMonthEvents env year month w)) /\
  refused w (getCalendarStats env w) /\
  (forall date, refused w (checkPTOForDate env date w)) /\
  (* settings.ts *)
  (forall payload, refused w (updateUserPreferences env payload w)) /\
  (forall payload, refused w (updateNotificationSettings env payload w)) /\
  refused w (deleteUserAccount env w).
Proof.
  intros Hcaller. repeat apply conj; refuse Hcaller.
Qed.

(** Witness of C2: a visitor without a session, and a session whose user
    id is empty. *)
Lemma no_caller_is_refused_witness :
  refused Sample.world
    (addTimesheetEntry Sample.visitor
       (AddEntryData.mk "2026-11-04" "p1" 8%float None None) Sample.world) /\
  refused Sample.world (deleteGoal Sample.blank "g2" Sample.world) /\
  refused Sample.world
    (updateUserPreferences Sample.visitor
       (PreferencesPayload.mk (Some "dark") None None) Sample.world).
Proof.
  pose proof (no_caller_is_refused Sample.visitor Sample.world eq_refl) as Hv.
  pose proof (no_caller_is_refused Sample.blank Sample.world eq_refl) as Hb.
  split; [apply Hv|]. split; [apply Hb | apply Hv].
Defined.

(** The route [GET /api/user/preferences] is not a server action: without
    a caller it answers 401 with the body [{ error: "Unauthorized" }]; it
    never writes. *)
Lemma GET_without_caller env w :
  callerId env = None -> GET env w = (JsonError 401 "Unauthorized", w).
Proof. intros H. unfold GET. by rewrite H. Qed.

Lemma GET_reads_only env w : (GET env w).2 = w.
Proof. unfold GET. by destruct (callerId env). Qed.

(** ** C3: the stored total follows the entries *)

Lemma findFirst_lookup {A} (get : Store -> gmap string A) P w i a w' :
  Prisma.findFirst get P w = (Return (Some (i, a)), w') ->
  w' = w /\ get (db w) !! i = Some a.
Proof.
  unfold Prisma.findFirst, query. intros H. inversion H as [[Hhead Hw]].
  subst w'. split; [done|].
  apply head_Some in Hhead as [l Hl].
  assert ((i, a) ∈ List.filter (fun r => P r.1 r.2) (map_to_list (get (db w)))) as Hin.
  { rewrite Hl. apply elem_of_cons. by left. }
  apply list_elem_of_In in Hin.
  apply (proj1 (List.filter_In _ _ _)) in Hin. destruct Hin as [Hin _].
  apply list_elem_of_In in Hin. by apply elem_of_map_to_list in Hin.
Qed.

Lemma create_spec {A} (get : Store -> gmap string A) set row w :
  Prisma.create get set row w
  = (Return (fresh (dom (get (db w))), row),
     mkWorld (set (<[fresh (dom (get (db w))) := row]> (get (db w))) (db w))
       (revalidated w)).
Proof. reflexivity. Qed.

(** The store's sum is the sum taken from the left. *)
Lemma addUp_fold first others :
  addUp first others = fold_left PrimFloat.add others first.
Proof. revert first. induction others as [|h others IH]; intros first; cbn; auto. Qed.

(** [x || 0] on a sum is that sum as a number, and 0 for NaN. *)
Lemma orZero_number x :
  if Num.isNaN x then Num.orZero (Some x) = 0%float
  else sameNumber (Num.orZero (Some x)) x.
Proof.
  unfold Num.orZero, Num.truthy, sameNumber.
  destruct (Num.isNaN x) eqn:E.
  - by rewrite orb_true_r.
  - rewrite orb_false_r. destruct (is_zero x) eqn:Ez; cbn [negb].
    + rewrite NumFacts.eqb_sym. exact Ez.
    + by apply NumFacts.eqb_refl.
Qed.

(** A filter that no row of the table passes selects nothing. *)
Lemma filter_rows_nil {A} (m : gmap string A) (P : string * A -> bool) :
  (forall i a, m !! i = Some a -> P (i, a) = false) ->
  List.filter P (map_to_list m) = [].
Proof.
  intros H.
  assert (forall r, r ∈ map_to_list m -> P r = false) as Hall.
  { intros [i a] Hin. apply H. by apply elem_of_map_to_list. }
  induction (map_to_list m) as [|r l IH]; [done|].
  cbn. rewrite (Hall r) by (apply elem_of_cons; by left).
  apply IH. intros r' Hr'. apply Hall. apply elem_of_cons. by right.
Qed.

(** The recomputation restores the invariant for its timesheet and does
    not touch the entries; it throws when the timesheet is missing. *)
Lemma recomputeTotalHours_spec timesheetId w :
  match timesheets (db w) !! timesheetId with
  | Some t =>
      exists w', recomputeTotalHours timesheetId w = (Return tt, w')
        /\ timesheetEntries (db w') = timesheetEntries (db w)
        /\ totalHoursConsistent (db w') timesheetId
  | None => exists e, recomputeTotalHours timesheetId w = (Throw e, w)
  end.
Proof.
  unfold recomputeTotalHours, bind, Prisma.aggregateSum. cbn [query].
  destruct (timesheets (db w) !! timesheetId) as [t|] eqn:Ht.
  - rewrite (update_found timesheets set_timesheets _ _ _ _ Ht).
    eexists. split; [reflexivity|]. split; [reflexivity|].
    eexists. cbn. split; [apply lookup_insert_eq|].
    unfold entryHours, inTimesheet. cbn.
    destruct (List.filter _ _) as [|r found]; [reflexivity|].
    cbn [List.map]. rewrite <- addUp_fold. apply orZero_number.
  - unfold Prisma.update, bind, query. cbn. rewrite Ht. by eexists.
Qed.

(** What a successful [addTimesheetEntry] leaves behind. *)
Lemma addTimesheetEntry_success env data w d message w' :
  addTimesheetEntry env data w = (Success d message, w') ->
  exists entryId entry,
    d = Some (entryId, entry)
    /\ timesheetEntries (db w') !! entryId = Some entry
    /\ totalHoursConsistent (db w') (TimesheetEntry.timesheetId entry).
Proof.
  unfold addTimesheetEntry, try_catch.
  destruct (callerId env) as [uid|]; [|by intros [=]].
  destruct (negb (nonEmpty _)); [by intros [=]|].
  destruct (negb (nonEmpty _)); [by intros [=]|].
  destruct (_ || _); [by intros [=]|].
  unfold bind at 1. unfold newDate.
  destruct (parseDate env _) as [entryDate|]; [|by intros [=]].
  cbn [ret].
  destruct (weekBounds (tz env) entryDate) as [weekStart weekEnd].
  unfold bind at 1.
  destruct (Prisma.findFirst timesheets (weekOf uid weekStart) w)
    as [[found|e] w1] eqn:Hfind; [|discriminate Hfind].
  assert (w1 = w) as -> by (by inversion Hfind).
  unfold bind at 1.
  set (resolve := match found with Some t => ret t | None => _ end).
  assert (exists tid t w2, resolve w = (Return (tid, t), w2)
            /\ timesheets (db w2) !! tid = Some t
            /\ timesheetEntries (db w2) = timesheetEntries (db w))
    as (tid & t & w2 & -> & Ht & He).
  { unfold resolve. destruct found as [[tid t]|].
    - apply findFirst_lookup in Hfind as [_ Ht]. by exists tid, t, w.
    - rewrite create_spec. eexists _, _, _. split; [reflexivity|].
      cbn. split; [apply lookup_insert_eq | reflexivity]. }
  cbn [fst snd].
  destruct (decide (Timesheet.status t = TS_APPROVED)); [by intros [=]|].
  unfold bind at 1. rewrite create_spec.
  set (entryId := fresh _). set (entry := TimesheetEntry.mk _ _ _ _ _ _).
  set (w3 := mkWorld _ _).
  unfold bind at 1.
  pose proof (recomputeTotalHours_spec tid w3) as Hrec.
  assert (timesheets (db w3) !! tid = Some t) as Ht3 by exact Ht.
  rewrite Ht3 in Hrec. destruct Hrec as (w4 & -> & He4 & Hcons).
  cbn. intros [= <- <- <-]. exists entryId, entry. split; [done|]. cbn.
  split; [|exact Hcons].
  rewrite He4. cbn. apply lookup_insert_eq.
Qed.

(** What a successful [updateTimesheetEntry] leaves behind. *)
Lemma updateTimesheetEntry_success env entryId data w d message w' :
  updateTimesheetEntry env entryId data w = (Success d message, w') ->
  exists entry,
    d = Some (entryId, entry)
    /\ timesheetEntries (db w') !! entryId = Some entry
    /\ totalHoursConsistent (db w') (TimesheetEntry.timesheetId entry).
Proof.
  unfold updateTimesheetEntry, try_catch.
  destruct (callerId env) as [uid|]; [|by intros [=]].
  unfold bind at 1. rewrite findOwnEntry_spec.
  destruct (timesheetEntries (db w) !! entryId) as [e|] eqn:He; [|by intros [=]].
  destruct (timesheets (db w) !! TimesheetEntry.timesheetId e) as [t|] eqn:Ht;
    [|by intros [=]].
  destruct (bool_decide (Timesheet.userId t = uid)); [|by intros [=]].
  cbn [fst snd].
  destruct (decide (Timesheet.status t = TS_APPROVED)); [by intros [=]|].
  unfold bind at 1.
  rewrite (update_found timesheetEntries set_timesheetEntries _ _ _ _ He).
  set (w1 := mkWorld _ _).
  unfold bind at 1.
  pose proof (recomputeTotalHours_spec (TimesheetEntry.timesheetId e) w1) as Hrec.
  assert (timesheets (db w1) !! TimesheetEntry.timesheetId e = Some t) as Ht1
    by exact Ht.
  rewrite Ht1 in Hrec. destruct Hrec as (w2 & -> & He2 & Hcons).
  cbn. intros [= <- <- <-]. eexists. split; [done|]. cbn.
  split; [|exact Hcons].
  rewrite He2. cbn. apply lookup_insert_eq.
Qed.

(** What a successful [deleteTimesheetEntry] leaves behind. *)
Lemma deleteTimesheetEntry_success env entryId w d message w' :
  deleteTimesheetEntry env entryId w = (Success d message, w') ->
  exists entry,
    timesheetEntries (db w) !! entryId = Some entry
    /\ timesheetEntries (db w') !! entryId = None
    /\ totalHoursConsistent (db w') (TimesheetEntry.timesheetId entry).
Proof.
  unfold deleteTimesheetEntry, try_catch.
  destruct (callerId env) as [uid|]; [|by intros [=]].
  unfold bind at 1. rewrite findOwnEntry_spec.
  destruct (timesheetEntries (db w) !! entryId) as [e|] eqn:He; [|by intros [=]].
  destruct (timesheets (db w) !! TimesheetEntry.timesheetId e) as [t|] eqn:Ht;
    [|by intros [=]].
  destruct (bool_decide (Timesheet.userId t = uid)); [|by intros [=]].
  cbn [fst snd].
  destruct (decide (Timesheet.status t = TS_APPROVED)); [by intros [=]|].
  unfold bind at 1.
  rewrite (delete_found timesheetEntries set_timesheetEntries _ _ _ He).
  set (w1 := mkWorld _ _).
  unfold bind at 1.
  pose proof (recomputeTotalHours_spec (TimesheetEntry.timesheetId e) w1) as Hrec.
  assert (timesheets (db w1) !! TimesheetEntry.timesheetId e = Some t) as Ht1
    by exact Ht.
  rewrite Ht1 in Hrec. destruct Hrec as (w2 & -> & He2 & Hcons).
  cbn. intros [= <- <- <-]. exists e. split; [done|]. cbn.
  split; [|exact Hcons].
  rewrite He2. cbn. apply lookup_delete_eq.
Qed.

(** C3. After each successful timesheet-entry mutation, the parent
    timesheet of the entry exists and its stored [totalHours] equals, as a
    number, the sum of the hours of the entries that now belong to it (the
    sum the store computes, in binary64 arithmetic), and is 0 when none
    remains: for [addTimesheetEntry] the parent of the created entry, for
    [updateTimesheetEntry] the parent of the updated entry, for
    [deleteTimesheetEntry] the parent of the entry that was deleted.  In
    the one case where the sum is not a number (NaN), 0 is stored. *)
Theorem total_hours_follow_entries (env : Env) (w : World) :
  (forall data d message w',
     addTimesheetEntry env data w = (Success d message, w') ->
     exists entryId entry,
       d = Some (entryId, entry)
       /\ timesheetEntries (db w') !! entryId = Some entry
       /\ totalHoursConsistent (db w') (TimesheetEntry.timesheetId entry)) /\
  (forall entryId data d message w',
     updateTimesheetEntry env entryId data w = (Success d message, w') ->
     exists entry,
       d = Some (entryId, entry)
       /\ timesheetEntries (db w') !! entryId = Some entry
       /\ totalHoursConsistent (db w') (TimesheetEntry.timesheetId entry)) /\
  (forall entryId d message w',
     deleteTimesheetEntry env entryId w = (Success d message, w') ->
     exists entry,
       timesheetEntries (db w) !! entryId = Some entry
       /\ timesheetEntries (db w') !! entryId = None
       /\ totalHoursConsistent (db w') (TimesheetEntry.timesheetId entry)).
Proof.
  split; [|split]; intros.
  - by eapply addTimesheetEntry_success.
  - by eapply updateTimesheetEntry_success.
  - by eapply deleteTimesheetEntry_success.
Qed.

(** Witness of C3: Alice adds an entry to her draft week, changes the
    hours of one and deletes one. *)
Lemma total_hours_follow_entries_witness :
  (exists entryId entry w',
     addTimesheetEntry Sample.alice
       (AddEntryData.mk "2026-11-04" "p1" 1.5%float None None) Sample.world
     = (Success (Some (entryId, entry)) None, w')
     /\ totalHoursConsistent (db w') (TimesheetEntry.timesheetId entry)) /\
  (exists entry w',
     updateTimesheetEntry Sample.alice "e2"
       (UpdateEntryData.mk (Some 6%float) None None) Sample.world
     = (Success (Some ("e2", entry)) None, w')
     /\ totalHoursConsistent (db w') (TimesheetEntry.timesheetId entry)) /\
  (exists entry w',
     deleteTimesheetEntry Sample.alice "e4" Sample.world = (Success None None, w')
     /\ timesheetEntries Sample.store !! "e4" = Some entry
     /\ totalHoursConsistent (db w') (TimesheetEntry.timesheetId entry)).
Proof.
  destruct (total_hours_follow_entries Sample.alice Sample.world)
    as (Hadd & Hupdate & Hdelete).
  split; [|split].
  - set (data := AddEntryData.mk "2026-11-04" "p1" 1.5%float None None).
    destruct (addTimesheetEntry Sample.alice data Sample.world) as [r w'] eqn:Hrun.
    assert (exists d, r = Success d None) as [d ->].
    { replace r with (addTimesheetEntry Sample.alice data Sample.world).1
        by (rewrite Hrun; reflexivity).
      vm_compute. eexists; reflexivity. }
    destruct (Hadd _ _ _ _ Hrun) as (entryId & entry & -> & _ & Hcons).
    exists entryId, entry, w'. split; [reflexivity | exact Hcons].
  - set (data := UpdateEntryData.mk (Some 6%float) None None).
    destruct (updateTimesheetEntry Sample.alice "e2" data Sample.world)
      as [r w'] eqn:Hrun.
    assert (exists d, r = Success d None) as [d ->].
    { replace r with (updateTimesheetEntry Sample.alice "e2" data Sample.world).1
        by (rewrite Hrun; reflexivity).
      vm_compute. eexists; reflexivity. }
    destruct (Hupdate _ _ _ _ _ Hrun) as (entry & -> & _ & Hcons).
    exists entry, w'. split; [reflexivity | exact Hcons].
  - destruct (deleteTimesheetEntry Sample.alice "e4" Sample.world)
      as [r w'] eqn:Hrun.
    assert (r = Success None None) as ->.
    { replace r with (deleteTimesheetEntry Sample.alice "e4" Sample.world).1
        by (rewrite Hrun; reflexivity).
      vm_compute. reflexivity. }
    destruct (Hdelete _ _ _ _ Hrun) as (entry & He & _ & Hcons).
    exists entry, w'. split; [reflexivity | split; [exact He | exact Hcons]].
Defined.

(** Bob deletes the only entry of his week: the total drops from 8 to 0. *)
Example total_hours_of_an_emptied_timesheet :
  Timesheet.totalHours <$>
    timesheets (db (deleteTimesheetEntry Sample.bob "e1" Sample.world).2) !! "ts1"
  = Some 0%float.
Proof. vm_compute; reflexivity. Qed.

(** The sum is the one of binary64 arithmetic: Alice books 0.1 hours and
    then 0.2 hours on Sunday 1 November 2026, in a week that had no
    timesheet; the total stored for that week is 0.30000000000000004. *)
Example total_hours_are_rounded_sums :
  let w1 := (addTimesheetEntry Sample.alice
               (AddEntryData.mk "2026-11-01" "p1" 0.1%float None None) Sample.world).2 in
  let w2 := (addTimesheetEntry Sample.alice
               (AddEntryData.mk "2026-11-01" "p1" 0.2%float None None) w1).2 in
  List.map (fun r => Timesheet.totalHours r.2)
    (List.filter (fun r => bool_decide (Timesheet.weekStart r.2 = Sample.day (-6)))
       (map_to_list (timesheets (db w2))))
  = [0.30000000000000004%float].
Proof. vm_compute; reflexivity. Qed.

(** ** C4: numeric ranges of the payloads *)

(** [addTimesheetEntry] turns down hours outside (0, 24] before any
    write. *)
Lemma addTimesheetEntry_validates_hours env uid data w :
  callerId env = Some uid ->
  AddEntryData.date data <> "" ->
  AddEntryData.projectId data <> "" ->
  Num.leb (AddEntryData.hours data) 0 = true
  \/ Num.ltb 24 (AddEntryData.hours data) = true ->
  addTimesheetEntry env data w = (Failure "Hours must be between 0 and 24", w).
Proof.
  intros Hcaller Hdate Hproject Hhours.
  unfold addTimesheetEntry, try_catch, nonEmpty. rewrite Hcaller.
  destruct (decide (AddEntryData.date data = "")); [done|].
  destruct (decide (AddEntryData.projectId data = "")); [done|].
  cbn [negb].
  assert (negb (Num.truthy (AddEntryData.hours data))
          || Num.leb (AddEntryData.hours data) 0
          || Num.ltb 24 (AddEntryData.hours data) = true) as ->; [|done].
  destruct Hhours as [-> | ->]; by rewrite ?orb_true_r.
Qed.

(** [updateGoalProgress] stores a progress in [0, 100] for every input
    that is a number. *)
Lemma validProgress_range p :
  Num.isNaN p = false ->
  Num.leb 0 (validProgress p) = true /\ Num.leb (validProgress p) 100 = true.
Proof.
  intros Hp. unfold validProgress, Num.min. rewrite Hp. cbn [Num.isNaN orb].
  change (Num.isNaN 100) with false. cbn [orb].
  destruct (Num.ltb 100 p) eqn:E1; [by vm_compute|].
  destruct (Num.ltb p 100) eqn:E2.
  - unfold Num.max. rewrite Hp. change (Num.isNaN 0) with false. cbn [orb].
    destruct (Num.ltb 0 p) eqn:E3.
    + split; [by apply NumFacts.ltb_leb | by apply NumFacts.ltb_leb].
    + destruct (Num.ltb p 0) eqn:E4; by vm_compute.
  - change (get_sign 100) with false. cbn iota.
    assert (p = 100%float) as ->; [|by vm_compute].
    eapply NumFacts.eqb_eq; [by vm_compute|].
    by apply NumFacts.trichotomy.
Qed.

(** [updateTimesheetEntry] stores whatever hours the payload carries: for
    the owner of an entry whose timesheet is not approved, every [h] is
    accepted. *)
Lemma updateTimesheetEntry_stores_any_hours env uid entryId e t (h : float) w :
  callerId env = Some uid ->
  timesheetEntries (db w) !! entryId = Some e ->
  timesheets (db w) !! TimesheetEntry.timesheetId e = Some t ->
  Timesheet.userId t = uid ->
  Timesheet.status t <> TS_APPROVED ->
  exists w',
    updateTimesheetEntry env entryId (UpdateEntryData.mk (Some h) None None) w
    = (Success
         (Some (entryId,
                TimesheetEntry.mk (TimesheetEntry.timesheetId e)
                  (TimesheetEntry.date e) (TimesheetEntry.projectId e) h
                  (TimesheetEntry.description e) (TimesheetEntry.billable e)))
         None, w')
    /\ TimesheetEntry.hours <$> timesheetEntries (db w') !! entryId = Some h.
Proof.
  intros Hcaller He Ht Hown Hstatus.
  unfold updateTimesheetEntry, try_catch. rewrite Hcaller.
  unfold bind at 1. rewrite findOwnEntry_spec, He, Ht.
  rewrite bool_decide_eq_true_2 by done. cbn [fst snd].
  destruct (decide (Timesheet.status t = TS_APPROVED)); [done|].
  unfold bind at 1.
  rewrite (update_found timesheetEntries set_timesheetEntries _ _ _ _ He).
  set (w1 := mkWorld _ _).
  unfold bind at 1.
  pose proof (recomputeTotalHours_spec (TimesheetEntry.timesheetId e) w1) as Hrec.
  assert (timesheets (db w1) !! TimesheetEntry.timesheetId e = Some t) as Ht1
    by exact Ht.
  rewrite Ht1 in Hrec. destruct Hrec as (w2 & -> & He2 & _).
  cbn. eexists. split; [reflexivity|]. cbn.
  rewrite He2. cbn. by rewrite lookup_insert_eq.
Qed.

(** [updateGoal] stores whatever progress the payload carries. *)
Lemma updateGoal_stores_any_progress env uid goalId g (p : float) w :
  callerId env = Some uid ->
  goals (db w) !! goalId = Some g ->
  Goal.userId g = uid ->
  exists w',
    updateGoal env goalId (UpdateGoalData.mk None None None (Some p) None) w
    = (Success
         (Some (goalId,
                Goal.mk (Goal.userId g) (Goal.title g) (Goal.description g)
                  (Goal.targetDate g) p (Goal.status g) (Goal.updatedAt g)))
         None, w')
    /\ Goal.progress <$> goals (db w') !! goalId = Some p.
Proof.
  intros Hcaller Hg Hown.
  unfold updateGoal, try_catch, bind.
  rewrite Hcaller, findFirst_ownGoal, Hg.
  rewrite bool_decide_eq_true_2 by done. cbn [ret UpdateGoalData.targetDate].
  rewrite (update_found goals set_goals goalId _ w g Hg).
  cbn. eexists. split; [reflexivity|]. cbn. by rewrite lookup_insert_eq.
Qed.

(** C4 fails on the two update paths: [updateTimesheetEntry] performs no
    range check, and [updateGoal] writes the progress of the payload as it
    is.
    Alice sets the hours of her entry "e2" to 30: the call succeeds, 30 is
    stored and the total of the week becomes 32.5.  She sets the progress
    of her goal "g2" to 150: the call succeeds and 150 is stored.  The same
    hours are turned down by [addTimesheetEntry], the same progress is
    clamped to 100 by [updateGoalProgress]. *)
Theorem update_paths_skip_range_checks :
  (exists w',
     updateTimesheetEntry Sample.alice "e2"
       (UpdateEntryData.mk (Some 30%float) None None) Sample.world
     = (Success (Some ("e2", TimesheetEntry.mk "ts2" (Sample.day 2) "p1" 30%float None true))
          None, w')
     /\ TimesheetEntry.hours <$> timesheetEntries (db w') !! "e2" = Some 30%float
     /\ Timesheet.totalHours <$> timesheets (db w') !! "ts2" = Some 32.5%float) /\
  (exists w',
     updateGoal Sample.alice "g2"
       (UpdateGoalData.mk None None None (Some 150%float) None) Sample.world
     = (Success (Some ("g2", Goal.mk "alice" "Run a marathon" None None 150%float "active"
                                Sample.sunday)) None, w')
     /\ Goal.progress <$> goals (db w') !! "g2" = Some 150%float) /\
  addTimesheetEntry Sample.alice
    (AddEntryData.mk "2026-11-04" "p1" 30%float None None) Sample.world
  = (Failure "Hours must be between 0 and 24", Sample.world) /\
  Goal.progress <$>
    goals (db (updateGoalProgress Sample.alice "g2" 150%float Sample.world).2) !! "g2"
  = Some 100%float.
Proof.
  split; [|split; [|split]].
  - eexists. split; [vm_compute; reflexivity|]. split; vm_compute; reflexivity.
  - eexists. split; [vm_compute; reflexivity|]. vm_compute; reflexivity.
  - vm_compute; reflexivity.
  - vm_compute; reflexivity.
Qed.

(** ** C5: clamping of the progress and the status derived from it *)

Lemma validProgress_below p : Num.ltb p 0 = true -> validProgress p = 0%float.
Proof.
  intros Hp. unfold validProgress, Num.min, Num.max.
  destruct (NumFacts.ltb_not_NaN _ _ Hp) as [Hnan _]. rewrite Hnan.
  change (Num.isNaN 100) with false. change (Num.isNaN 0) with false. cbn [orb].
  assert (Num.ltb p 100 = true) as H100.
  { eapply NumFacts.ltb_0_trans; [vm_compute; reflexivity | exact Hp]. }
  rewrite (NumFacts.ltb_asym _ _ H100), H100, Hnan. cbn [orb].
  by rewrite (NumFacts.ltb_asym _ _ Hp), Hp.
Qed.

Lemma validProgress_above p : Num.ltb 100 p = true -> validProgress p = 100%float.
Proof.
  intros Hp. unfold validProgress, Num.min.
  destruct (NumFacts.ltb_not_NaN _ _ Hp) as [_ Hnan]. rewrite Hnan, Hp.
  reflexivity.
Qed.

Lemma validProgress_full p : Num.eqb p 100 = true -> validProgress p = 100%float.
Proof.
  intros Hp.
  assert (p = 100%float) as ->; [|reflexivity].
  eapply NumFacts.eqb_eq; [vm_compute; reflexivity | exact Hp].
Qed.

Lemma validProgress_inside p :
  Num.ltb 0 p = true -> Num.ltb p 100 = true -> validProgress p = p.
Proof.
  intros H0 H100. unfold validProgress, Num.min, Num.max.
  destruct (NumFacts.ltb_not_NaN _ _ H0) as [_ Hnan]. rewrite Hnan.
  change (Num.isNaN 100) with false. change (Num.isNaN 0) with false. cbn [orb].
  rewrite (NumFacts.ltb_asym _ _ H100), H100, Hnan. cbn [orb].
  by rewrite H0.
Qed.

Lemma deriveStatus_full status : deriveStatus 100 status = "completed".
Proof. reflexivity. Qed.

Lemma deriveStatus_partial p status :
  Num.ltb 0 p = true -> Num.ltb p 100 = true ->
  deriveStatus p status
  = if decide (status = "active") then "in-progress" else status.
Proof.
  intros H0 H100. unfold deriveStatus.
  rewrite (NumFacts.ltb_leb_false _ _ H100), H0. cbn.
  by destruct (decide (status = "active")) as [->|Hne];
    [rewrite bool_decide_eq_true_2 | rewrite bool_decide_eq_false_2].
Qed.

(** The run of [updateGoalProgress] on a goal of the caller. *)
Lemma updateGoalProgress_owned env uid goalId g progress w :
  callerId env = Some uid ->
  goals (db w) !! goalId = Some g ->
  Goal.userId g = uid ->
  let g' := Goal.mk (Goal.userId g) (Goal.title g) (Goal.description g)
              (Goal.targetDate g) (validProgress progress)
              (deriveStatus (validProgress progress) (Goal.status g)) (now env) in
  updateGoalProgress env goalId progress w
  = (Success (Some (goalId, g')) None,
     mkWorld (set_goals (<[goalId := g']> (goals (db w))) (db w))
       ("/employee/goals" :: revalidated w)).
Proof.
  intros Hcaller Hg Hown g'.
  unfold updateGoalProgress, try_catch, bind.
  rewrite Hcaller, findFirst_ownGoal, Hg.
  rewrite bool_decide_eq_true_2 by done.
  by rewrite (update_found goals set_goals goalId _ w g Hg).
Qed.

(** C5. For an authenticated call of [updateGoalProgress] on a goal the
    caller owns, the call succeeds and the stored goal has: progress 0 for
    an input below 0; progress 100 for an input above 100; status
    "completed" for an input equal to 100, whatever the status was; and for
    an input strictly between 0 and 100 the status "in-progress" when it
    was "active", the old status otherwise. *)
Theorem goal_progress_is_clamped (env : Env) (uid goalId : string) (g : Goal.t)
    (progress : float) (w : World) :
  callerId env = Some uid ->
  goals (db w) !! goalId = Some g ->
  Goal.userId g = uid ->
  exists g' w',
    updateGoalProgress env goalId progress w = (Success (Some (goalId, g')) None, w')
    /\ goals (db w') !! goalId = Some g'
    /\ (Num.ltb progress 0 = true -> Goal.progress g' = 0%float)
    /\ (Num.ltb 100 progress = true -> Goal.progress g' = 100%float)
    /\ (Num.eqb progress 100 = true -> Goal.status g' = "completed")
    /\ (Num.ltb 0 progress = true -> Num.ltb progress 100 = true ->
        Goal.status g'
        = if decide (Goal.status g = "active") then "in-progress" else Goal.status g).
Proof.
  intros Hcaller Hg Hown.
  eexists _, _. split; [by apply (updateGoalProgress_owned env uid)|].
  cbn. split; [apply lookup_insert_eq|].
  split; [apply validProgress_below|].
  split; [apply validProgress_above|].
  split.
  - intros H. by rewrite validProgress_full.
  - intros H0 H100.
    rewrite validProgress_inside by done.
    by apply deriveStatus_partial.
Qed.

(** Witness of C5: Alice moves her active goal to 50 percent. *)
Lemma goal_progress_is_clamped_witness :
  exists g' w',
    updateGoalProgress Sample.alice "g2" 50%float Sample.world
    = (Success (Some ("g2", g')) None, w')
    /\ goals (db w') !! "g2" = Some g'
    /\ Goal.status g' = "in-progress".
Proof.
  destruct (goal_progress_is_clamped Sample.alice "alice" "g2"
              (Goal.mk "alice" "Run a marathon" None None 0%float "active" Sample.sunday)
              50%float Sample.world eq_refl eq_refl eq_refl)
    as (g' & w' & Hrun & Hstored & _ & _ & _ & Hstatus).
  exists g', w'. split; [exact Hrun|]. split; [exact Hstored|].
  apply Hstatus; reflexivity.
Defined.

(** ** C6: an approved timesheet is frozen *)


(** C6. An APPROVED timesheet is not modified through the entry
    mutations: when the timesheet that [addTimesheetEntry] resolves for the
    caller and the week of the entry date is APPROVED, and when the parent
    timesheet of the entry addressed by [updateTimesheetEntry] or
    [deleteTimesheetEntry] is APPROVED, the action returns a failure and
    the world is unchanged: neither the entries nor [totalHours] change. *)
Theorem approved_timesheet_is_frozen (env : Env) (w : World) :
  (forall uid data entryDate timesheetId t,
     callerId env = Some uid ->
     parseDate env (AddEntryData.date data) = Some entryDate ->
     Prisma.findFirst timesheets
       (weekOf uid (weekBounds (tz env) entryDate).1) w
     = (Return (Some (timesheetId, t)), w) ->
     Timesheet.status t = TS_APPROVED ->
     rejected w (addTimesheetEntry env data w)) /\
  (forall entryId data e t,
     timesheetEntries (db w) !! entryId = Some e ->
     timesheets (db w) !! TimesheetEntry.timesheetId e = Some t ->
     Timesheet.status t = TS_APPROVED ->
     rejected w (updateTimesheetEntry env entryId data w)) /\
  (forall entryId e t,
     timesheetEntries (db w) !! entryId = Some e ->
     timesheets (db w) !! TimesheetEntry.timesheetId e = Some t ->
     Timesheet.status t = TS_APPROVED ->
     rejected w (deleteTimesheetEntry env entryId w)).
Proof.
  unfold rejected. split; [|split].
  - intros uid data entryDate timesheetId t Hcaller Hparse Hfind Happroved.
    unfold addTimesheetEntry, try_catch. rewrite Hcaller.
    destruct (negb (nonEmpty _)); [by eexists|].
    destruct (negb (nonEmpty _)); [by eexists|].
    destruct (_ || _); [by eexists|].
    unfold bind at 1. unfold newDate. rewrite Hparse. cbn [ret].
    destruct (weekBounds (tz env) entryDate) as [weekStart weekEnd].
    unfold bind at 1. cbn [fst] in Hfind. rewrite Hfind.
    unfold bind at 1. cbn [ret fst snd].
    destruct (decide (Timesheet.status t = TS_APPROVED)); [by eexists | done].
  - intros entryId data e t He Ht Happroved.
    unfold updateTimesheetEntry, try_catch.
    destruct (callerId env) as [uid|]; [|by eexists].
    unfold bind at 1. rewrite findOwnEntry_spec, He, Ht.
    destruct (bool_decide (Timesheet.userId t = uid)); [|by eexists].
    cbn [fst snd].
    destruct (decide (Timesheet.status t = TS_APPROVED)); [by eexists | done].
  - intros entryId e t He Ht Happroved.
    unfold deleteTimesheetEntry, try_catch.
    destruct (callerId env) as [uid|]; [|by eexists].
    unfold bind at 1. rewrite findOwnEntry_spec, He, Ht.
    destruct (bool_decide (Timesheet.userId t = uid)); [|by eexists].
    cbn [fst snd].
    destruct (decide (Timesheet.status t = TS_APPROVED)); [by eexists | done].
Qed.

(** Witness of C6: the week of 9 November 2026 of Alice is approved. *)
Lemma approved_timesheet_is_frozen_witness :
  rejected Sample.world
    (addTimesheetEntry Sample.alice
       (AddEntryData.mk "2026-11-13" "p1" 8%float None None) Sample.world) /\
  rejected Sample.world
    (updateTimesheetEntry Sample.alice "e3"
       (UpdateEntryData.mk (Some 1%float) None None) Sample.world) /\
  rejected Sample.world (deleteTimesheetEntry Sample.alice "e3" Sample.world).
Proof.
  destruct (approved_timesheet_is_frozen Sample.alice Sample.world)
    as (Hadd & Hupdate & Hdelete).
  split; [|split].
  - apply (Hadd "alice" _ (Sample.day 12) "ts3"
             (Timesheet.mk "alice" (Sample.day 8) (Sample.day 15 - 1) 7%float
                TS_APPROVED (Some "bob") Sample.sunday));
      vm_compute; reflexivity.
  - apply (Hupdate "e3" _ (TimesheetEntry.mk "ts3" (Sample.day 9) "p1" 7%float None false)
             (Timesheet.mk "alice" (Sample.day 8) (Sample.day 15 - 1) 7%float
                TS_APPROVED (Some "bob") Sample.sunday));
      vm_compute; reflexivity.
  - apply (Hdelete "e3" (TimesheetEntry.mk "ts3" (Sample.day 9) "p1" 7%float None false)
             (Timesheet.mk "alice" (Sample.day 8) (Sample.day 15 - 1) 7%float
                TS_APPROVED (Some "bob") Sample.sunday));
      vm_compute; reflexivity.
Defined.

(** ** C7: week bucketing *)

Module DateFacts.
Import JsDate.

(** The civil calendar is consistent: the first day of the month of a
    day, plus its day of the month, is the day itself. *)
Lemma civil_roundtrip d :
  let '(y, m, dom) := civilFromDays d in
  0 <= m <= 11 /\ daysFromCivil y m + dom - 1 = d.
Proof.
  unfold civilFromDays, daysFromCivil.
  set (z := d + 719468).
  set (era := z / 146097).
  set (doe := z mod 146097).
  assert (0 <= doe < 146097) as Hdoe by (apply Z.mod_pos_bound; lia).
  assert (z = era * 146097 + doe) as Hz.
  { unfold era, doe. rewrite Z.mul_comm. apply Z.div_mod. lia. }
  set (yoe := (doe - doe / 1460 + doe / 36524 - doe / 146096) / 365).
  assert (0 <= yoe <= 399) as Hyoe by (unfold yoe; Z.div_mod_to_equations; lia).
  set (doy := doe - (365 * yoe + yoe / 4 - yoe / 100)).
  assert (0 <= doy <= 365) as Hdoy.
  { unfold doy, yoe. Z.div_mod_to_equations. lia. }
  set (mp := (5 * doy + 2) / 153).
  assert (0 <= mp <= 11) as Hmp by (unfold mp; Z.div_mod_to_equations; lia).
  destruct (mp <? 10) eqn:E.
  - apply Z.ltb_lt in E.
    replace (mp + 2 <=? 1) with false by (symmetry; apply Z.leb_gt; lia).
    split; [lia|].
    replace (mp + 2 - 2) with mp by lia.
    replace ((yoe + era * 400 + 0) / 400) with era
      by (Z.div_mod_to_equations; lia).
    replace ((yoe + era * 400 + 0) mod 400) with yoe
      by (Z.div_mod_to_equations; lia).
    unfold doy in *. lia.
  - apply Z.ltb_ge in E.
    replace (mp - 10 <=? 1) with true by (symmetry; apply Z.leb_le; lia).
    split; [lia|].
    replace (mp - 10 + 10) with mp by lia.
    replace ((yoe + era * 400 + 1 - 1) / 400) with era
      by (Z.div_mod_to_equations; lia).
    replace ((yoe + era * 400 + 1 - 1) mod 400) with yoe
      by (Z.div_mod_to_equations; lia).
    unfold doy in *. lia.
Qed.

(** [MakeDay] in the month of [l] counts days from the first of it. *)
Lemma MakeDay_same_month l dt :
  MakeDay (YearFromTime l) (MonthFromTime l) dt = Day l - DateFromTime l + dt.
Proof.
  unfold MakeDay, YearFromTime, MonthFromTime, DateFromTime.
  pose proof (civil_roundtrip (Day l)) as H.
  destruct (civilFromDays (Day l)) as [[y m] dom]. cbn.
  destruct H as [Hm H].
  rewrite Z.div_small, Z.mod_small, Z.add_0_r by lia. lia.
Qed.

Lemma Day_MakeDate day time :
  0 <= time < msPerDay -> Day (MakeDate day time) = day.
Proof.
  intros H. unfold Day, MakeDate, msPerDay in *.
  Z.div_mod_to_equations. lia.
Qed.

Lemma MakeDate_Day l : MakeDate (Day l) (TimeWithinDay l) = l.
Proof.
  unfold MakeDate, Day, TimeWithinDay, msPerDay.
  Z.div_mod_to_equations. lia.
Qed.

Lemma Day_shift l k : Day (l + k * msPerDay) = Day l + k.
Proof. unfold Day, msPerDay. Z.div_mod_to_equations. lia. Qed.

Lemma TimeWithinDay_shift l k : TimeWithinDay (l + k * msPerDay) = TimeWithinDay l.
Proof. unfold TimeWithinDay, msPerDay. Z.div_mod_to_equations. lia. Qed.

Lemma MakeDate_shift day time k :
  MakeDate day time + k * msPerDay = MakeDate (day + k) time.
Proof. unfold MakeDate. ring. Qed.

(** [d.setDate(d.getDate() + k)] moves the local time of [d] by [k]
    days of 24 hours, and reads the result as a local time. *)
Lemma setDate_relative tz t k :
  setDate tz t (getDate tz t + k) = UTC tz (LocalTime tz t + k * msPerDay).
Proof.
  unfold setDate, getDate. rewrite MakeDay_same_month. f_equal.
  pose proof (MakeDate_Day (LocalTime tz t)) as H.
  unfold MakeDate in *. lia.
Qed.

(** In a zone of fixed offset every local time exists, and a day later
    is 24 hours later. *)
Lemma fixedZone_roundtrip offset l :
  LocalTime (fixedZone offset) (UTC (fixedZone offset) l) = l.
Proof. unfold LocalTime, UTC, fixedZone. ring. Qed.

Lemma setDate_fixedZone offset t k :
  setDate (fixedZone offset) t (getDate (fixedZone offset) t + k) = t + k * msPerDay.
Proof. rewrite setDate_relative. unfold LocalTime, UTC, fixedZone. ring. Qed.

End DateFacts.

Lemma weekBounds_eq (tz : JsDate.Zone) (d : Z) :
  weekBounds tz d
  = (let weekStart :=
       JsDate.setHours tz
         (JsDate.setDate tz d
            (JsDate.getDate tz d + - daysSinceMonday (JsDate.LocalTime tz d)))
         0 0 0 0 in
     (weekStart,
      JsDate.setHours tz
        (JsDate.setDate tz weekStart (JsDate.getDate tz weekStart + 6))
        23 59 59 999)).
Proof.
  unfold weekBounds, daysSinceMonday, JsDate.getDay.
  rewrite <- Z.add_opp_r. reflexivity.
Qed.

Lemma daysSinceMonday_range l : 0 <= daysSinceMonday l <= 6.
Proof.
  unfold daysSinceMonday, JsDate.WeekDay.
  destruct (_ =? 0) eqn:E; [lia|]. apply Z.eqb_neq in E.
  pose proof (Z.mod_pos_bound (JsDate.Day l + 4) 7). lia.
Qed.

(** The day [daysSinceMonday] days before a day is a Monday. *)
Lemma monday_is_a_monday l :
  (JsDate.Day l - daysSinceMonday l + 4) mod 7 = 1.
Proof.
  unfold daysSinceMonday, JsDate.WeekDay.
  generalize (JsDate.Day l). intros n.
  destruct (_ =? 0) eqn:E.
  - apply Z.eqb_eq in E. Z.div_mod_to_equations. lia.
  - apply Z.eqb_neq in E. Z.div_mod_to_equations. lia.
Qed.

Lemma weekBounds_fst (tz : JsDate.Zone) (d : Z) :
  (weekBounds tz d).1
  = JsDate.setHours tz
      (JsDate.setDate tz d
         (JsDate.getDate tz d + - daysSinceMonday (JsDate.LocalTime tz d))) 0 0 0 0.
Proof. rewrite weekBounds_eq. cbv zeta. reflexivity. Qed.

(** [setHours] on a time whose local day is known. *)
Lemma setHours_on_day tz t day h m s ms :
  JsDate.Day (JsDate.LocalTime tz t) = day ->
  JsDate.setHours tz t h m s ms
  = JsDate.UTC tz (JsDate.MakeDate day (JsDate.MakeTime h m s ms)).
Proof. intros <-. reflexivity. Qed.

Section WeekBounds.
Variable tz : JsDate.Zone.
Variable d : Z.

Let l := JsDate.LocalTime tz d.
Let monday := JsDate.Day l - daysSinceMonday l.

Hypothesis monday_keeps_day : keepsDay tz (l - daysSinceMonday l * JsDate.msPerDay).
Hypothesis monday_midnight_exists :
  localTimeExists tz (JsDate.MakeDate monday (JsDate.MakeTime 0 0 0 0)).

Lemma weekStart_utc :
  (weekBounds tz d).1 = JsDate.UTC tz (JsDate.MakeDate monday (JsDate.MakeTime 0 0 0 0)).
Proof.
  rewrite weekBounds_fst. apply setHours_on_day.
  rewrite DateFacts.setDate_relative. fold l.
  replace (l + - daysSinceMonday l * JsDate.msPerDay)
    with (l - daysSinceMonday l * JsDate.msPerDay) by ring.
  rewrite monday_keeps_day.
  replace (l - daysSinceMonday l * JsDate.msPerDay)
    with (l + - daysSinceMonday l * JsDate.msPerDay) by ring.
  apply DateFacts.Day_shift.
Qed.

Lemma weekStart_local :
  JsDate.LocalTime tz (weekBounds tz d).1
  = JsDate.MakeDate monday (JsDate.MakeTime 0 0 0 0).
Proof. rewrite weekStart_utc. exact monday_midnight_exists. Qed.

Hypothesis sunday_midnight_keeps_day :
  keepsDay tz (JsDate.MakeDate (monday + 6) (JsDate.MakeTime 0 0 0 0)).
Hypothesis sunday_end_exists :
  localTimeExists tz (JsDate.MakeDate (monday + 6) (JsDate.MakeTime 23 59 59 999)).

Lemma weekEnd_utc :
  (weekBounds tz d).2
  = JsDate.UTC tz (JsDate.MakeDate (monday + 6) (JsDate.MakeTime 23 59 59 999)).
Proof.
  pose proof weekStart_local as Hstart. rewrite weekBounds_fst in Hstart.
  rewrite weekBounds_eq. cbv zeta. unfold snd.
  apply setHours_on_day.
  rewrite DateFacts.setDate_relative, Hstart, DateFacts.MakeDate_shift.
  rewrite sunday_midnight_keeps_day.
  apply DateFacts.Day_MakeDate. by vm_compute.
Qed.

Lemma weekEnd_local :
  JsDate.LocalTime tz (weekBounds tz d).2
  = JsDate.MakeDate (monday + 6) (JsDate.MakeTime 23 59 59 999).
Proof. rewrite weekEnd_utc. exact sunday_end_exists. Qed.

End WeekBounds.




(** The two transitions of the sample zones, as the zone reads local
    times: in Tehran the midnight of 22 March 2021 is skipped and read as
    01:00 of that day; in New York 01:30 of 1 November 2026 comes twice and
    is read as the first of the two, at UTC-04:00. *)
Example tehran_skips_a_midnight :
  JsDate.LocalTime Sample.tehran
    (JsDate.UTC Sample.tehran (JsDate.MakeDate 18708 (JsDate.MakeTime 0 0 0 0)))
  = JsDate.MakeDate 18708 (JsDate.MakeTime 1 0 0 0).
Proof. vm_compute; reflexivity. Qed.

Example newYork_repeats_an_hour :
  JsDate.UTC Sample.newYork (JsDate.MakeDate 20758 (JsDate.MakeTime 1 30 0 0))
  = Sample.sunday + 5 * JsDate.msPerHour + 30 * JsDate.msPerMinute
  /\ JsDate.LocalTime Sample.newYork
       (Sample.sunday + 5 * JsDate.msPerHour + 30 * JsDate.msPerMinute)
     = JsDate.LocalTime Sample.newYork
         (Sample.sunday + 6 * JsDate.msPerHour + 30 * JsDate.msPerMinute).
Proof. vm_compute. split; reflexivity. Qed.

(** In a zone of fixed offset the four conditions hold for every date. *)
Lemma week_bounds_in_a_fixed_zone (offset d : Z) :
  let tz := JsDate.fixedZone offset in
  let l := JsDate.LocalTime tz d in
  let weekStart := JsDate.LocalTime tz (weekBounds tz d).1 in
  let weekEnd := JsDate.LocalTime tz (weekBounds tz d).2 in
  weekStart = JsDate.MakeDate (JsDate.Day l - daysSinceMonday l) (JsDate.MakeTime 0 0 0 0)
  /\ JsDate.WeekDay weekStart = 1
  /\ 0 <= daysSinceMonday l <= 6
  /\ weekEnd = JsDate.MakeDate (JsDate.Day weekStart + 6) (JsDate.MakeTime 23 59 59 999).
Proof.
  intros tz l weekStart weekEnd.
  assert (forall x, localTimeExists tz x) as Hexists
    by (intros x; apply DateFacts.fixedZone_roundtrip).
  assert (forall x, keepsDay tz x) as Hkeeps
    by (intros x; unfold keepsDay; by rewrite Hexists).
  pose proof (weekStart_local tz d (Hkeeps _) (Hexists _)) as Hstart.
  pose proof (weekEnd_local tz d (Hkeeps _) (Hexists _) (Hkeeps _) (Hexists _)) as Hend.
  fold l weekStart in Hstart. fold l weekEnd in Hend.
  assert (JsDate.Day weekStart = JsDate.Day l - daysSinceMonday l) as Hday.
  { rewrite Hstart. apply DateFacts.Day_MakeDate. by vm_compute. }
  split; [exact Hstart|]. split; [|split].
  - unfold JsDate.WeekDay. rewrite Hday. apply monday_is_a_monday.
  - apply daysSinceMonday_range.
  - rewrite Hday. exact Hend.
Qed.

(** Two dates of the sample week, at UTC and at UTC+05:30: a Sunday maps
    to the Monday six days earlier, a Wednesday to the Monday two days
    earlier. *)
Example week_of_a_sunday :
  weekBounds Sample.utc (Sample.sunday + 17 * JsDate.msPerHour)
  = (Sample.day (-6), Sample.day 1 - 1).
Proof. vm_compute; reflexivity. Qed.

Example week_of_a_wednesday :
  weekBounds Sample.utc (Sample.day 3 + 9 * JsDate.msPerHour)
  = (Sample.day 1, Sample.day 8 - 1).
Proof. vm_compute; reflexivity. Qed.

Example week_of_a_wednesday_in_kolkata :
  weekBounds Sample.kolkata (Sample.day 3 + 9 * JsDate.msPerHour)
  = (Sample.day 1 - 19800000, Sample.day 8 - 1 - 19800000).
Proof. vm_compute; reflexivity. Qed.

(** ** C8: the calendar merges three sources and sorts them *)

Section StableSort.
Context {A : Type} (le : A -> A -> bool).
Hypothesis le_total : forall x y, le x y = false -> le y x = true.

Lemma HdRel_insertBy a x l :
  le a x = true -> HdRel (fun u v => le u v = true) a l ->
  HdRel (fun u v => le u v = true) a (insertBy le x l).
Proof.
  intros Hax Hal. destruct l as [|y l]; cbn.
  - by constructor.
  - destruct (le x y); constructor; [done|].
    by inversion Hal.
Qed.

Lemma Sorted_insertBy x l :
  Sorted (fun u v => le u v = true) l ->
  Sorted (fun u v => le u v = true) (insertBy le x l).
Proof.
  induction 1 as [|y l Hl IH Hhd]; cbn.
  - by repeat constructor.
  - destruct (le x y) eqn:E.
    + constructor; [by constructor|]. by constructor.
    + constructor; [exact IH|].
      apply HdRel_insertBy; [by apply le_total | done].
Qed.

Lemma Sorted_orderBy l : Sorted (fun u v => le u v = true) (orderBy le l).
Proof.
  induction l as [|x l IH]; cbn; [constructor|]. by apply Sorted_insertBy.
Qed.

Lemma insertBy_Permutation x l : insertBy le x l ≡ₚ x :: l.
Proof.
  induction l as [|y l IH]; cbn; [done|].
  destruct (le x y); [done|]. rewrite IH. apply Permutation_swap.
Qed.

Lemma orderBy_Permutation l : orderBy le l ≡ₚ l.
Proof.
  induction l as [|x l IH]; cbn; [done|].
  by rewrite insertBy_Permutation, IH.
Qed.
End StableSort.

Lemma countType_Permutation ty l1 l2 :
  l1 ≡ₚ l2 -> countType ty l1 = countType ty l2.
Proof.
  intros H. unfold countType.
  induction H as [|x l1 l2 _ IH|x y l|l1 l2 l3 _ IH1 _ IH2]; cbn.
  - done.
  - destruct (bool_decide _); cbn; congruence.
  - by destruct (bool_decide _), (bool_decide _).
  - congruence.
Qed.

(** In a zone of fixed offset the step of the day loop is 24 hours. *)
Lemma nextDay_fixedZone offset t :
  nextDay (JsDate.fixedZone offset) t = t + JsDate.msPerDay.
Proof.
  unfold nextDay. rewrite DateFacts.setDate_fixedZone. lia.
Qed.

Lemma plainDays_fixedZone offset from n : plainDays (JsDate.fixedZone offset) from n.
Proof.
  intros k _. rewrite nextDay_fixedZone. lia.
Qed.

Lemma plainDays_next tz from n :
  plainDays tz from (S n) ->
  nextDay tz from = from + JsDate.msPerDay
  /\ plainDays tz (from + JsDate.msPerDay) n.
Proof.
  intros H. split.
  - specialize (H O ltac:(lia)).
    replace (from + Z.of_nat 0 * JsDate.msPerDay) with from in H by lia.
    rewrite H. lia.
  - intros k Hk. specialize (H (S k) ltac:(lia)).
    replace (from + JsDate.msPerDay + Z.of_nat k * JsDate.msPerDay)
      with (from + Z.of_nat (S k) * JsDate.msPerDay) by lia.
    rewrite H. lia.
Qed.

(** One turn of the loop over the days of a request. *)
Lemma ptoDays_step fuel tz start end_ r currentDate endDate :
  ptoDays (S fuel) tz start end_ r currentDate endDate
  = if currentDate <=? endDate then
      match ptoDays fuel tz start end_ r (nextDay tz currentDate) endDate with
      | Some rest =>
          Some ((if (start <=? currentDate) && (currentDate <=? end_)
                 then [ptoEvent r currentDate] else []) ++ rest)%list
      | None => None
      end
    else Some [].
Proof. unfold nextDay. cbn [ptoDays]. reflexivity. Qed.

(** The loop over a request that lies in the window, across days of 24
    hours: one event per day. *)
Lemma ptoDays_inside tz start end_ r endDate n :
  endDate <= end_ ->
  forall fuel currentDate,
    (n < fuel)%nat ->
    start <= currentDate ->
    plainDays tz currentDate n ->
    currentDate + Z.of_nat n * JsDate.msPerDay - JsDate.msPerDay <= endDate ->
    endDate < currentDate + Z.of_nat n * JsDate.msPerDay ->
    ptoDays fuel tz start end_ r currentDate endDate
    = Some (ptoSpan r currentDate n).
Proof.
  intros Hend. induction n as [|n IH]; intros fuel cur Hfuel Hstart Hplain Hlo Hhi.
  - destruct fuel as [|fuel]; [lia|]. rewrite ptoDays_step.
    assert ((cur <=? endDate) = false) as -> by (apply Z.leb_gt; lia). done.
  - destruct fuel as [|fuel]; [lia|]. rewrite ptoDays_step.
    assert (0 < JsDate.msPerDay) by done.
    assert (cur <= endDate) by nia.
    assert ((cur <=? endDate) = true) as -> by (apply Z.leb_le; lia).
    assert ((start <=? cur) = true) as -> by (apply Z.leb_le; lia).
    assert ((cur <=? end_) = true) as -> by (apply Z.leb_le; lia).
    apply plainDays_next in Hplain as [Hnext Hplain].
    rewrite Hnext.
    rewrite (IH fuel (cur + JsDate.msPerDay)); [done| lia | lia | done | lia | lia].
Qed.

(** The loop exits within the fuel it is given, in every zone whose
    calendar days last twelve hours or more. *)
Lemma ptoDays_exits tz start end_ r endDate :
  (forall t, t + JsDate.msPerDay / 2 <= nextDay tz t) ->
  forall fuel currentDate,
    (Z.to_nat ((endDate - currentDate) / (JsDate.msPerDay / 2) + 1) < fuel)%nat ->
    is_Some (ptoDays fuel tz start end_ r currentDate endDate).
Proof.
  intros Hstep. induction fuel as [|fuel IH]; intros cur Hfuel; [lia|].
  rewrite ptoDays_step. destruct (cur <=? endDate) eqn:E; [|done].
  apply Z.leb_le in E.
  destruct (IH (nextDay tz cur)) as [rest ->]; [|done].
  specialize (Hstep cur).
  change (JsDate.msPerDay / 2) with 43200000 in *.
  assert (0 <= (endDate - cur) / 43200000) by (apply Z.div_pos; lia).
  assert ((endDate - nextDay tz cur) / 43200000 <= (endDate - cur) / 43200000 - 1).
  { replace ((endDate - cur) / 43200000 - 1)
      with ((endDate - cur + (-1) * 43200000) / 43200000)
      by (rewrite Z.div_add by done; lia).
    apply Z.div_le_mono; lia. }
  lia.
Qed.

Lemma ptoEvents_exits tz start end_ found :
  (forall t, t + JsDate.msPerDay / 2 <= nextDay tz t) ->
  is_Some (ptoEvents tz start end_ found).
Proof.
  intros Hstep. induction found as [|r found [rest Hrest]]; [done|].
  cbn [ptoEvents]. rewrite Hrest.
  destruct (ptoDays_exits tz start end_ r (PTORequest.endDate r.2) Hstep
              (ptoFuel r) (PTORequest.startDate r.2)) as [days ->]; [|done].
  unfold ptoFuel. lia.
Qed.

Lemma filter_singleton_holds {A} (P : A -> bool) (l : list A) (x : A) :
  List.filter P l = [x] -> P x = true.
Proof.
  intros H.
  assert (In x (List.filter P l)) as Hin by (rewrite H; by left).
  by apply List.filter_In in Hin as [_ ?].
Qed.

Lemma Sorted_weaken {A} (R1 R2 : A -> A -> Prop) (l : list A) :
  (forall a b, R1 a b -> R2 a b) -> Sorted R1 l -> Sorted R2 l.
Proof.
  intros Himp. induction 1 as [|x l Hl IH Hhd]; constructor; [done|].
  destruct Hhd; constructor. by apply Himp.
Qed.

Lemma dateOrdered_sorted (l : list CalendarEvent.t) :
  StronglySorted dateOrdered
    (orderBy (fun a b => CalendarEvent.date a <=? CalendarEvent.date b) l).
Proof.
  apply Sorted_StronglySorted.
  - intros a b c. unfold dateOrdered. lia.
  - eapply Sorted_weaken; [|apply Sorted_orderBy].
    + intros a b H. unfold dateOrdered. by apply Z.leb_le.
    + intros a b H. apply Z.leb_le. apply Z.leb_gt in H. lia.
Qed.

Lemma findMany_tasksDueIn uid start end_ w :
  Prisma.findMany tasks
    (fun _ t => bool_decide (Task.assigneeId t = Some uid)
                && dateBetween start end_ (Task.dueDate t)) w
  = (Return (tasksDueIn (db w) uid start end_), w).
Proof. reflexivity. Qed.

Lemma findMany_approvedPtoIn uid start end_ w :
  Prisma.findMany ptoRequests
    (fun _ p => bool_decide (PTORequest.userId p = uid)
                && bool_decide (PTORequest.status p = "APPROVED")
                && (dateBetween start end_ (Some (PTORequest.startDate p))
                    || dateBetween start end_ (Some (PTORequest.endDate p)))) w
  = (Return (approvedPtoIn (db w) uid start end_), w).
Proof. reflexivity. Qed.

(** Where no transition of the zone falls in the span, the scenario of C8
    holds.  For a caller and a query window [start, end_] in which the
    caller has exactly one task due, exactly one review whose appraisal
    cycle ends, and exactly one approved PTO request, this one lying inside
    the window and spanning three days of 24 hours, [getMyCalendarEvents]
    succeeds without touching the world and returns five events: the event
    of the task, the event of the review, and one PTO event of the request
    for each of the three days, dated at its start, one day later and two
    days later; they come in ascending order of date. *)
Lemma calendar_merges_three_sources (env : Env) (uid : string) (w : World)
    (start end_ : Z) (t : string * Task.t)
    (a : string * AppraisalReview.t * AppraisalCycle.t)
    (p : string * PTORequest.t) :
  callerId env = Some uid ->
  tasksDueIn (db w) uid start end_ = [t] ->
  reviewsEndingIn (db w) uid start end_ = [a] ->
  approvedPtoIn (db w) uid start end_ = [p] ->
  start <= PTORequest.startDate p.2 ->
  PTORequest.endDate p.2 <= end_ ->
  2 * JsDate.msPerDay <= PTORequest.endDate p.2 - PTORequest.startDate p.2
    < 3 * JsDate.msPerDay ->
  plainDays (tz env) (PTORequest.startDate p.2) 3 ->
  exists taskEv events,
    taskEvent t = Some taskEv
    /\ getMyCalendarEvents env (Some (Some start)) (Some (Some end_)) w
       = (Success (Some events) None, w)
    /\ events ≡ₚ [taskEv; appraisalEvent a;
                  ptoEvent p (PTORequest.startDate p.2);
                  ptoEvent p (PTORequest.startDate p.2 + JsDate.msPerDay);
                  ptoEvent p (PTORequest.startDate p.2 + 2 * JsDate.msPerDay)]
    /\ StronglySorted dateOrdered events
    /\ countType task events = 1%nat
    /\ countType appraisal events = 1%nat
    /\ countType pto events = 3%nat.
Proof.
  intros Hcaller Htasks Hreviews Hpto Hstart Hend Hspan Hplain.
  assert (exists due, Task.dueDate t.2 = Some due) as [due Hdue].
  { apply filter_singleton_holds in Htasks.
    apply andb_true_iff in Htasks as [_ Hbetween].
    destruct (Task.dueDate t.2) as [due|]; [by exists due | done]. }
  assert (exists taskEv, taskEvent t = Some taskEv) as [taskEv HtaskEv].
  { unfold taskEvent. rewrite Hdue. by eexists. }
  assert (ptoEvents (tz env) start end_ [p]
          = Some (ptoSpan p (PTORequest.startDate p.2) 3)) as Hdays.
  { cbn [ptoEvents].
    rewrite (ptoDays_inside (tz env) start end_ p (PTORequest.endDate p.2) 3 Hend).
    - by rewrite app_nil_r.
    - unfold ptoFuel. change (JsDate.msPerDay / 2) with 43200000.
      assert (4 <= (PTORequest.endDate p.2 - PTORequest.startDate p.2) / 43200000).
      { apply Z.div_le_lower_bound; [done|]. unfold JsDate.msPerDay in *. lia. }
      lia.
    - done.
    - done.
    - unfold JsDate.msPerDay in *. lia.
    - unfold JsDate.msPerDay in *. lia. }
  set (events :=
         [taskEv; appraisalEvent a;
          ptoEvent p (PTORequest.startDate p.2);
          ptoEvent p (PTORequest.startDate p.2 + JsDate.msPerDay);
          ptoEvent p (PTORequest.startDate p.2 + 2 * JsDate.msPerDay)]).
  exists taskEv,
    (orderBy (fun a b => CalendarEvent.date a <=? CalendarEvent.date b) events).
  split; [exact HtaskEv|].
  split.
  { unfold getMyCalendarEvents, try_catch. rewrite Hcaller.
    cbn [default fmap option_fmap option_map].
    cbv beta iota delta [bind ret validDate Datatypes.id].
    rewrite (findMany_tasksDueIn uid start end_ w), Htasks.
    cbn [query]. rewrite Hreviews.
    rewrite (findMany_approvedPtoIn uid start end_ w), Hpto, Hdays.
    cbn [omap list_omap List.map ptoSpan app]. rewrite HtaskEv. cbn [app].
    replace (PTORequest.startDate p.2 + JsDate.msPerDay + JsDate.msPerDay)
      with (PTORequest.startDate p.2 + 2 * JsDate.msPerDay) by lia.
    reflexivity. }
  pose proof (orderBy_Permutation
                (fun a b => CalendarEvent.date a <=? CalendarEvent.date b) events)
    as Hperm.
  split; [exact Hperm|].
  split; [apply dateOrdered_sorted|].
  rewrite !(countType_Permutation _ _ _ Hperm).
  unfold events, countType, taskEvent in *. rewrite Hdue in HtaskEv.
  injection HtaskEv as <-. cbn. done.
Qed.

(** Alice in UTC, the first two weeks of November 2026: her task, the end
    of her appraisal cycle and her three days of leave. *)
Lemma calendar_merges_three_sources_in_utc :
  exists taskEv events,
    taskEvent ("t2", Task.mk "Ship release" None "IN_PROGRESS" "MEDIUM"
                       (Some (Sample.day 9)) (Some "p1") (Some "alice") (Some "alice")
                       (Some 5%float) None Sample.sunday Sample.sunday)
    = Some taskEv
    /\ getMyCalendarEvents Sample.alice (Some (Some Sample.sunday))
         (Some (Some (Sample.day 14))) Sample.world
       = (Success (Some events) None, Sample.world)
    /\ countType pto events = 3%nat
    /\ StronglySorted dateOrdered events.
Proof.
  destruct (calendar_merges_three_sources Sample.alice "alice" Sample.world
              Sample.sunday (Sample.day 14)
              ("t2", Task.mk "Ship release" None "IN_PROGRESS" "MEDIUM"
                       (Some (Sample.day 9)) (Some "p1") (Some "alice") (Some "alice")
                       (Some 5%float) None Sample.sunday Sample.sunday)
              ("a2", AppraisalReview.mk "c1" "alice" None None None AS_DRAFT
                       None Sample.sunday Sample.sunday,
               AppraisalCycle.mk "H2 2026" (Sample.day (-120)) (Sample.day 10)
                 AS_IN_PROGRESS)
              ("pto1", PTORequest.mk "alice" (Sample.day 6) (Sample.day 8)
                         "APPROVED" "VACATION" None))
    as (taskEv & events & Htask & Hrun & _ & Hsorted & _ & _ & Hpto).
  - reflexivity.
  - vm_compute; reflexivity.
  - vm_compute; reflexivity.
  - vm_compute; reflexivity.
  - vm_compute; discriminate.
  - vm_compute; discriminate.
  - split; vm_compute; [discriminate | reflexivity].
  - apply plainDays_fixedZone.
  - exists taskEv, events. split; [exact Htask|]. split; [exact Hrun|].
    split; [exact Hpto | exact Hsorted].
Defined.

(** C8 fails across the end of daylight-saving time.  On a server in New
    York, Alice asks for the events from 25 October to 15 November 2026.
    In that window she has one task due, one review whose cycle ends and
    one approved request for three days of leave: 31 October, 1 November
    and 2 November (from 31 October 00:00 UTC to 2 November 00:00 UTC).

    The loop pushes 31 October 00:00 UTC, steps one local day to 1 November
    00:00 UTC and pushes it, then steps one local day again: the local day
    of 1 November lasts 25 hours, so the step lands on 2 November 01:00
    UTC, past the end of the request.  The answer has two PTO events; the
    third day of the leave has none.

    The same call on a server in UTC returns the three of them. *)
Theorem pto_day_is_lost_when_the_clocks_go_back :
  let start := Sample.day (-7) in
  let end_ := Sample.day 14 in
  let task2 := ("t2", Task.mk "Ship release" None "IN_PROGRESS" "MEDIUM"
                        (Some (Sample.day 9)) (Some "p1") (Some "alice") (Some "alice")
                        (Some 5%float) None Sample.sunday Sample.sunday) in
  let review2 := ("a2", AppraisalReview.mk "c1" "alice" None None None AS_DRAFT
                          None Sample.sunday Sample.sunday,
                  AppraisalCycle.mk "H2 2026" (Sample.day (-120)) (Sample.day 10)
                    AS_IN_PROGRESS) in
  let leave := ("pto3", PTORequest.mk "alice" (Sample.day (-1)) (Sample.day 1)
                          "APPROVED" "VACATION" None) in
  tasksDueIn Sample.leaveStore "alice" start end_ = [task2]
  /\ reviewsEndingIn Sample.leaveStore "alice" start end_ = [review2]
  /\ approvedPtoIn Sample.leaveStore "alice" start end_ = [leave]
  /\ (exists taskEv,
        taskEvent task2 = Some taskEv
        /\ getMyCalendarEvents Sample.aliceInNewYork (Some (Some start)) (Some (Some end_))
             Sample.leaveWorld
           = (Success (Some [ptoEvent leave (Sample.day (-1));
                             ptoEvent leave (Sample.day 0);
                             taskEv; appraisalEvent review2]) None,
              Sample.leaveWorld)
        /\ getMyCalendarEvents Sample.alice (Some (Some start)) (Some (Some end_))
             Sample.leaveWorld
           = (Success (Some [ptoEvent leave (Sample.day (-1));
                             ptoEvent leave (Sample.day 0);
                             ptoEvent leave (Sample.day 1);
                             taskEv; appraisalEvent review2]) None,
              Sample.leaveWorld))
  /\ nextDay Sample.newYork (Sample.day 0) = Sample.day 1 + JsDate.msPerHour.
Proof.
  cbv zeta.
  split; [vm_compute; reflexivity|].
  split; [vm_compute; reflexivity|].
  split; [vm_compute; reflexivity|].
  split; [|vm_compute; reflexivity].
  eexists. split; [reflexivity|].
  split; vm_compute; reflexivity.
Qed.

(** ** C9: deleting the account is a stub *)

(** C9. For an authenticated caller, [deleteUserAccount] returns
    [{ success: true, message: "Account deleted successfully" }] and the
    world is unchanged: no row of the store is deleted or written, and no
    path is invalidated. *)
Theorem deleteUserAccount_changes_nothing (env : Env) (uid : string) (w : World) :
  callerId env = Some uid ->
  deleteUserAccount env w
  = (Success None (Some "Account deleted successfully"), w).
Proof. intros Hcaller. unfold deleteUserAccount. by rewrite Hcaller. Qed.

(** Witness of C9: Alice deletes her account; her user row, goals and
    timesheets are all still there. *)
Lemma deleteUserAccount_changes_nothing_witness :
  deleteUserAccount Sample.alice Sample.world
  = (Success None (Some "Account deleted successfully"), Sample.world).
Proof.
  apply (deleteUserAccount_changes_nothing Sample.alice "alice" Sample.world).
  reflexivity.
Defined.

(** ** C10: the preferences are replaced as a whole *)

Lemma strOr_omitted (field : option string) (fallback : string) :
  omitted field -> default fallback (strOr field None) = fallback.
Proof. by intros [-> | ->]. Qed.

Lemma strOr_given (s fallback : string) :
  s <> "" -> default fallback (strOr (Some s) None) = s.
Proof. intros H. unfold strOr, nonEmpty. by destruct (decide (s = "")). Qed.

Lemma preferencesJson_lookup (p : Preferences.t) (k : string) :
  preferencesJson p !! k
  = if decide (k = "theme") then Some (JString (Preferences.theme p))
    else if decide (k = "language") then Some (JString (Preferences.language p))
    else if decide (k = "timezone") then Some (JString (Preferences.timezone p))
    else None.
Proof.
  unfold preferencesJson.
  destruct (decide (k = "theme")) as [->|H1]; [by rewrite lookup_insert_eq|].
  rewrite lookup_insert_ne by done.
  destruct (decide (k = "language")) as [->|H2]; [by rewrite lookup_insert_eq|].
  rewrite lookup_insert_ne by done.
  destruct (decide (k = "timezone")) as [->|H3]; [by rewrite lookup_insert_eq|].
  by rewrite lookup_insert_ne.
Qed.

(** C10. For an authenticated caller with a user row,
    [updateUserPreferences] succeeds and stores a preferences object that
    depends on the payload alone: it has exactly the keys theme, language
    and timezone (every other key stored before is gone); a field omitted
    from the payload, or empty in it, holds its default ("light",
    "English", "UTC") whatever was stored, and a field given holds the
    value given.  The other columns of the row are kept. *)
Theorem preferences_are_replaced (env : Env) (uid : string) (u : User.t)
    (payload : PreferencesPayload.t) (w : World) :
  callerId env = Some uid ->
  users (db w) !! uid = Some u ->
  exists w' prefs,
    updateUserPreferences env payload w
    = (Success (Some (preferencesData payload))
         (Some "Preferences updated successfully"), w')
    /\ users (db w') !! uid
       = Some (User.mk (User.name u) (User.email u) (Some prefs)
                 (User.notificationSettings u))
    /\ (forall k, k <> "theme" -> k <> "language" -> k <> "timezone" ->
          prefs !! k = None)
    /\ (omitted (PreferencesPayload.theme payload) ->
          prefs !! "theme" = Some (JString "light"))
    /\ (omitted (PreferencesPayload.language payload) ->
          prefs !! "language" = Some (JString "English"))
    /\ (omitted (PreferencesPayload.timezone payload) ->
          prefs !! "timezone" = Some (JString "UTC"))
    /\ (forall s, PreferencesPayload.theme payload = Some s -> s <> "" ->
          prefs !! "theme" = Some (JString s))
    /\ (forall s, PreferencesPayload.language payload = Some s -> s <> "" ->
          prefs !! "language" = Some (JString s))
    /\ (forall s, PreferencesPayload.timezone payload = Some s -> s <> "" ->
          prefs !! "timezone" = Some (JString s)).
Proof.
  intros Hcaller Hu.
  exists (mkWorld
            (set_users
               (alter (fun u => User.mk (User.name u) (User.email u)
                                  (Some (preferencesJson (preferencesData payload)))
                                  (User.notificationSettings u)) uid (users (db w)))
               (db w))
            ("/profile" :: "/settings" :: revalidated w)),
         (preferencesJson (preferencesData payload)).
  split.
  { unfold updateUserPreferences. by rewrite Hcaller. }
  split.
  { cbn. rewrite lookup_alter_eq, Hu. reflexivity. }
  split.
  { intros k H1 H2 H3. rewrite preferencesJson_lookup.
    by repeat (destruct (decide _); [done|]). }
  repeat split; intros; rewrite preferencesJson_lookup; cbn; do 2 f_equal;
    unfold preferencesData; cbn;
    first [ by apply strOr_omitted
          | match goal with H : _ = Some _ |- _ => rewrite H end;
            by apply strOr_given ].
Qed.

(** Witness of C10: Alice, whose stored preferences are dark / Telugu /
    Asia/Kolkata with an extra key, sends only an empty timezone. *)
Lemma preferences_are_replaced_witness :
  exists w' prefs,
    updateUserPreferences Sample.alice
      (PreferencesPayload.mk None None (Some "")) Sample.world
    = (Success (Some (Preferences.mk "light" "English" "UTC"))
         (Some "Preferences updated successfully"), w')
    /\ User.preferences <$> users (db w') !! "alice" = Some (Some prefs)
    /\ prefs !! "density" = None
    /\ prefs !! "theme" = Some (JString "light")
    /\ prefs !! "language" = Some (JString "English")
    /\ prefs !! "timezone" = Some (JString "UTC").
Proof.
  set (payload := PreferencesPayload.mk None None (Some "")).
  destruct (preferences_are_replaced Sample.alice "alice"
              (User.mk (Some "Alice") (Some "alice@example.org")
                 (Some (<["theme" := JString "dark"]>
                          (<["language" := JString "Telugu"]>
                             (<["timezone" := JString "Asia/Kolkata"]>
                                (<["density" := JString "compact"]> ∅)))))
                 None)
              payload Sample.world eq_refl eq_refl)
    as (w' & prefs & Hrun & Hrow & Hother & Htheme & Hlanguage & Htimezone & _).
  exists w', prefs.
  split; [exact Hrun|].
  split; [rewrite Hrow; reflexivity|].
  split; [apply Hother; discriminate|].
  split; [apply Htheme; left; reflexivity|].
  split; [apply Hlanguage; left; reflexivity|].
  apply Htimezone; right; reflexivity.
Defined.
